(** * ai_news.py: the BBC headline reader

    A shallow embedding of [src/ai_news.py]: the bs4 documents the scraper
    walks, the OpenAI chat object, the text-to-speech object and [main].

    Effects are kept explicit.  Every call that leaves the process (an HTTP
    request, a print, an OpenAI call, a file write, a sleep, a playback) is
    logged as an [event]; a computation is a log together with an [outcome],
    which is a returned value, a raised Python exception, or the end of the
    fuel given to the [while] loop.  What the outside world answers is read
    from a [World] record of oracles. *)

From Stdlib Require Import String Ascii ZArith QArith Bool Arith List Lia.
Import ListNotations.
Local Close Scope Q_scope.
Local Open Scope string_scope.
Local Open Scope list_scope.

(** ** Python exceptions *)

Inductive exn : Type :=
| AttributeError                       (* attribute access on None *)
| IndexError                           (* list index out of range *)
| UnboundLocalError                    (* local read before assignment *)
| RequestException (why : string)      (* raised by requests.get *)
| OpenAIError (why : string)           (* raised by the openai client *)
| OSError (why : string)               (* raised while writing a file *)
| PlaysoundException (why : string)    (* raised by playsound *)
| UserDefined (cls : string).          (* an exception class named [cls] *)

Definition is_AttributeError (e : exn) : bool :=
  match e with AttributeError => true | _ => false end.

(** ** bs4 documents *)

#[warnings="-register-all"]
Inductive Tag : Type :=
| NavigableString (s : string)
| Element (name : string) (contents : list Tag).

(** Everything below a tag, in document order (bs4's [.descendants]). *)
Fixpoint descendants (t : Tag) : list Tag :=
  match t with
  | NavigableString _ => []
  | Element _ cs => flat_map (fun c => c :: descendants c) cs
  end.

Definition has_name (name : string) (t : Tag) : bool :=
  match t with
  | NavigableString _ => false
  | Element n _ => String.eqb n name
  end.

Definition find_all (name : string) (t : Tag) : list Tag :=
  filter (has_name name) (descendants t).

(** [tag.find(name)]: the first match, or Python's [None]. *)
Definition find (name : string) (t : Tag) : option Tag :=
  hd_error (find_all name t).

Arguments find_all : simpl never.
Arguments find : simpl never.

(** [tag.get_text()], also reached as [tag.text]. *)
Fixpoint get_text (t : Tag) : string :=
  match t with
  | NavigableString s => s
  | Element _ cs => String.concat "" (map get_text cs)
  end.

(** ** Paths (pathlib) *)

Record Path : Type := mkPath { absolute : bool; parts : list string }.

Definition parent (p : Path) : Path :=
  mkPath (absolute p) (removelast (parts p)).

Definition joinpath (p : Path) (child : string) : Path :=
  mkPath (absolute p) (parts p ++ [child]).

Definition path_name (p : Path) : string := last (parts p) "".

(** ** Requests to OpenAI *)

Record message : Type := mkMessage { role : string; content : string }.

Record ChatRequest : Type := mkChatRequest {
  req_model : string;
  req_messages : list message;
  req_temperature : Q;
  req_n : Z
}.

Record SpeechRequest : Type := mkSpeechRequest {
  sp_model : string;
  sp_voice : string;
  sp_input : string
}.

(** [response.choices], each choice reduced to its [message.content]. *)
Record ChatCompletion : Type := mkChatCompletion { choices : list string }.

(** ** Events and outcomes *)

Inductive event : Type :=
| EvRequest (url : string) (timeout : Z)
| EvPrint (line : string)
| EvChatCreate (req : ChatRequest)
| EvSpeechCreate (req : SpeechRequest)
| EvStreamToFile (path : Path) (audio : string)
| EvSleep (seconds : Q)
| EvPlaysound (sound : string).

Inductive outcome (A : Type) : Type :=
| Return (a : A)
| Raise (e : exn)
| OutOfFuel.

Arguments Return {A} a.
Arguments Raise {A} e.
Arguments OutOfFuel {A}.

Definition M (A : Type) : Type := (list event * outcome A)%type.

Definition ret {A} (a : A) : M A := ([], Return a).

Definition raise {A} (e : exn) : M A := ([], Raise e).

Definition out_of_fuel {A} : M A := ([], OutOfFuel).

Definition emit (ev : event) : M unit := ([ev], Return tt).

Definition bind {A B} (m : M A) (f : A -> M B) : M B :=
  match snd m with
  | Return a => (fst m ++ fst (f a), snd (f a))
  | Raise e => (fst m, Raise e)
  | OutOfFuel => (fst m, OutOfFuel)
  end.

(** [try: m  except <caught>: handler] *)
Definition try_except {A} (m : M A) (caught : exn -> bool) (handler : M A) : M A :=
  match snd m with
  | Raise e => if caught e then (fst m ++ fst handler, snd handler) else m
  | _ => m
  end.

Definition trace {A} (m : M A) : list event := fst m.
Definition result {A} (m : M A) : outcome A := snd m.

Declare Scope py_scope.
Delimit Scope py_scope with py.
Notation "x <- m ;; k" := (bind m (fun x => k))
  (at level 61, m at next level, right associativity) : py_scope.
Notation "m ;; k" := (bind m (fun _ => k))
  (at level 61, right associativity) : py_scope.
Local Open Scope py_scope.

(** Python's [xs[i]] for [i >= 0]. *)
Definition getitem {A} (xs : list A) (i : nat) : M A :=
  match nth_error xs i with
  | Some x => ret x
  | None => raise IndexError
  end.

(** [obj.text] where [obj] came from [tag.<name>], which is [None] when the
    tag has no such child. *)
Definition dot_text (obj : option Tag) : M string :=
  match obj with
  | Some t => ret (get_text t)
  | None => raise AttributeError
  end.

Definition print (line : string) : M unit := emit (EvPrint line).

(** ** The outside world *)

Record World : Type := mkWorld {
  (** [requests.get(url, timeout=t).text], or the reason it raised *)
  requests_get : string -> Z -> string + string;
  (** [BeautifulSoup(text, features)] *)
  bsoup : string -> string -> Tag;
  (** [client.chat.completions.create(...)] *)
  chat_completions_create : ChatRequest -> string + ChatCompletion;
  (** [client.audio.speech.create(...)]: the audio, or the reason it raised *)
  audio_speech_create : SpeechRequest -> string + string;
  (** [response.stream_to_file(path)]: [Some why] when the write raises *)
  stream_to_file : Path -> string -> option string;
  (** [playsound(sound)]: [Some why] when playback raises *)
  playsound : string -> option string;
  (** [__file__] of ai_news.py *)
  dunder_file : Path;
  (** the working directory of the process *)
  cwd : Path;
  (** [constants.OPENAI_API_KEY] *)
  OPENAI_API_KEY : string
}.

(** The file a path names once the process resolves it. *)
Definition resolve (w : World) (p : Path) : Path :=
  if absolute p then p else mkPath (absolute (cwd w)) (parts (cwd w) ++ parts p).

Record OpenAI : Type := mkOpenAI { api_key : string }.

(** ** The program, over a fixed world *)

Section Program.

Variable w : World.

(** *** class AIChat *)

Record AIChat : Type := mkAIChat {
  client : OpenAI;
  model : string;
  temperature : Q;
  num_of_responses : Z;
  inputs : list message
}.

Definition newline : string := String (ascii_of_nat 10) "".
Definition indent16 : string := "                ".

Definition system_content : string :=
  "The user will input text taken from a BBC News article and you will summarise it in one to three sentences."
  ++ newline ++ indent16 ++
  "The article may contain biased language, so you should attempt to rephrase it to be more politically neutral."
  ++ newline ++ indent16 ++
  "You are delivering a daily news briefing to the user, so you should provide a summary of the article's main points without mentioning the article directly.".

Definition system_message : message := mkMessage "system" system_content.

Definition AIChat_init (c : OpenAI) : AIChat :=
  {| client := c;
     model := "gpt-3.5-turbo";
     temperature := 0.5;
     num_of_responses := 1;
     inputs := [system_message] |}.

(** [self.client.chat.completions.create(...)] *)
Definition chat_create (req : ChatRequest) : M ChatCompletion :=
  emit (EvChatCreate req);;
  match chat_completions_create w req with
  | inl why => raise (OpenAIError why)
  | inr response => ret response
  end.

(** Methods take [self] and hand it back next to their value, so that what
    a call does to the object is visible. *)
Definition run_ai (self : AIChat) : M (ChatCompletion * AIChat) :=
  response <- chat_create {| req_model := model self;
                             req_messages := inputs self;
                             req_temperature := temperature self;
                             req_n := num_of_responses self |};;
  ret (response, self).

Definition add_input (self : AIChat) (d : message) : AIChat :=
  {| client := client self;
     model := model self;
     temperature := temperature self;
     num_of_responses := num_of_responses self;
     inputs := inputs self ++ [d] |}.

(** *** class News *)

Record News : Type := mkNews { url : string }.

Definition requests_dot_get (u : string) (timeout : Z) : M string :=
  emit (EvRequest u timeout);;
  match requests_get w u timeout with
  | inl why => raise (RequestException why)
  | inr text => ret text
  end.

Definition _get_soup (self : News) (u features : string) : M Tag :=
  response_text <- requests_dot_get u 10;;
  let data := bsoup w response_text features in
  ret data.

Definition _get_body (self : News) (u features text_class : string) : M string :=
  soup <- _get_soup self u features;;
  story <- dot_text (find text_class soup);;
  ret story.

(** *** class BBCNews (News) *)

Definition BBCNews_init : News := mkNews "http://feeds.bbci.co.uk/news/rss.xml".

(** The local variables the [while] loop of [get_headlines] works on;
    [body] is unbound until the first assignment. *)
Record locals : Type := mkLocals {
  found_article : bool;
  counter : nat;
  body : option string
}.

(** One pass through the [try] / [except AttributeError] statement. *)
Definition try_next_article (self : News) (articles : list Tag) (l : locals) : M locals :=
  try_except
    (item <- getitem articles (counter l);;
     link <- dot_text (find "link" item);;
     b <- _get_body self link "xml" "article";;
     ret {| found_article := true; counter := counter l; body := Some b |})
    is_AttributeError
    (print "Article not found, trying next article.";;
     ret {| found_article := found_article l; counter := counter l + 1; body := body l |}).

(** [while not found_article: ...], at most [fuel] passes. *)
Fixpoint while_not_found (fuel : nat) (self : News) (articles : list Tag)
    (l : locals) : M locals :=
  if found_article l then ret l
  else
    match fuel with
    | O => out_of_fuel
    | S fuel' =>
        l' <- try_next_article self articles l;;
        while_not_found fuel' self articles l'
    end.

(** Reading a local variable. *)
Definition read_local {A} (v : option A) : M A :=
  match v with
  | Some a => ret a
  | None => raise UnboundLocalError
  end.

Definition get_headlines (fuel : nat) (self : News) : M (string * string * string) :=
  soup <- _get_soup self (url self) "xml";;
  let articles := find_all "item" soup in
  l <- while_not_found fuel self articles
         {| found_article := false; counter := 0; body := None |};;
  first <- getitem articles 0;;
  title <- dot_text (find "title" first);;
  first' <- getitem articles 0;;
  description <- dot_text (find "description" first');;
  b <- read_local (body l);;
  ret (title, description, b).

(** *** class TTS *)

Record TTS : Type := mkTTS { tts_client : OpenAI; path : Path }.

Definition TTS_init (c : OpenAI) (filename : string) : TTS :=
  {| tts_client := c;
     path := joinpath (parent (dunder_file w)) (filename ++ ".mp3") |}.

Definition speech_create (req : SpeechRequest) : M string :=
  emit (EvSpeechCreate req);;
  match audio_speech_create w req with
  | inl why => raise (OpenAIError why)
  | inr audio => ret audio
  end.

Definition response_stream_to_file (audio : string) (p : Path) : M unit :=
  emit (EvStreamToFile p audio);;
  match stream_to_file w p audio with
  | Some why => raise (OSError why)
  | None => ret tt
  end.

Definition create_audio (self : TTS) (text : string) : M unit :=
  response <- speech_create {| sp_model := "tts-1"; sp_voice := "alloy"; sp_input := text |};;
  response_stream_to_file response (path self).

Definition playsound_call (sound : string) : M unit :=
  emit (EvPlaysound sound);;
  match playsound w sound with
  | Some why => raise (PlaysoundException why)
  | None => ret tt
  end.

Definition play_audio (self : TTS) : M unit :=
  playsound_call (path_name (path self)).

Definition sleep (seconds : Q) : M unit := emit (EvSleep seconds).

(** *** main *)

(** [for x in xs: body x] *)
Fixpoint for_each {A} (xs : list A) (body : A -> M unit) : M unit :=
  match xs with
  | [] => ret tt
  | x :: xs' => body x;; for_each xs' body
  end.

Definition main (fuel : nat) : M unit :=
  let c := mkOpenAI (OPENAI_API_KEY w) in
  let news := BBCNews_init in
  tdb <- get_headlines fuel news;;
  let '(title, description, b) := tdb in
  let ai_chat := AIChat_init c in
  let ai_chat := add_input ai_chat (mkMessage "user" ("Article Title: " ++ title)) in
  let ai_chat := add_input ai_chat (mkMessage "user" ("Article Description: " ++ description)) in
  let ai_chat := add_input ai_chat (mkMessage "user" ("Article Body: " ++ b)) in
  ra <- run_ai ai_chat;;
  let response := fst ra in
  for_each (choices response) print;;
  let tts := TTS_init c "news" in
  first_choice <- getitem (choices response) 0;;
  create_audio tts first_choice;;
  sleep 0.5;;
  play_audio tts.

End Program.

(** ** Reading a run *)

(** What the page behind an item's link gives the resolver. *)
Inductive page_status : Type :=
| NoLink                         (* the item has no link element *)
| Unreachable (why : string)     (* requests.get raised *)
| Bodyless                       (* the page has no article element *)
| HasBody (b : string).          (* the text of the page's article element *)

Definition link_text (item : Tag) : option string :=
  option_map get_text (find "link" item).

Definition page_status_of (w : World) (item : Tag) : page_status :=
  match link_text item with
  | None => NoLink
  | Some u =>
      match requests_get w u 10 with
      | inl why => Unreachable why
      | inr text =>
          match find "article" (bsoup w text "xml") with
          | None => Bodyless
          | Some art => HasBody (get_text art)
          end
      end
  end.

(** The items of the feed, when the feed itself can be fetched. *)
Definition feed_items (w : World) : option (list Tag) :=
  match requests_get w (url BBCNews_init) 10 with
  | inl _ => None
  | inr text => Some (find_all "item" (bsoup w text "xml"))
  end.

Definition title_of (item : Tag) : option string :=
  option_map get_text (find "title" item).

Definition description_of (item : Tag) : option string :=
  option_map get_text (find "description" item).

(** The request an item's page costs, if the item has a link at all. *)
Definition link_requests (item : Tag) : list event :=
  match link_text item with
  | Some u => [EvRequest u 10]
  | None => []
  end.

Definition skip_line : string := "Article not found, trying next article.".

(** The log left by skipping every item of [pre]. *)
Definition skip_trace (pre : list Tag) : list event :=
  flat_map (fun it => link_requests it ++ [EvPrint skip_line]) pre.

Definition skipped (st : page_status) : bool :=
  match st with
  | NoLink | Bodyless => true
  | _ => false
  end.

(** Projections of a log. *)
Definition chat_requests (tr : list event) : list ChatRequest :=
  flat_map (fun e => match e with EvChatCreate r => [r] | _ => [] end) tr.

Definition speech_requests (tr : list event) : list SpeechRequest :=
  flat_map (fun e => match e with EvSpeechCreate r => [r] | _ => [] end) tr.

Definition written_paths (tr : list event) : list Path :=
  flat_map (fun e => match e with EvStreamToFile p _ => [p] | _ => [] end) tr.

Definition played_sounds (tr : list event) : list string :=
  flat_map (fun e => match e with EvPlaysound s => [s] | _ => [] end) tr.

Definition request_timeouts (tr : list event) : list Z :=
  flat_map (fun e => match e with EvRequest _ t => [t] | _ => [] end) tr.

Definition requested_urls (tr : list event) : list string :=
  flat_map (fun e => match e with EvRequest u _ => [u] | _ => [] end) tr.

(** The spec's name for the resolver's terminal error.  ai_news.py defines
    no exception class; this names the one the spec expects. *)
Definition NoArticleFoundError : exn := UserDefined "NoArticleFoundError".

(** ** Names used in the statements *)

Definition feed_request : event := EvRequest (url BBCNews_init) 10.

Definition start : locals :=
  {| found_article := false; counter := 0; body := None |}.

(** A request with the ten second timeout, or a print. *)
Definition is_scraper_event (e : event) : bool :=
  match e with
  | EvRequest _ t => Z.eqb t 10
  | EvPrint _ => true
  | _ => false
  end.

Definition speech_request (text : string) : SpeechRequest :=
  {| sp_model := "tts-1"; sp_voice := "alloy"; sp_input := text |}.

(** The request main builds from the resolver's answer. *)
Definition chat_request (title description b : string) : ChatRequest :=
  {| req_model := "gpt-3.5-turbo";
     req_messages :=
       [mkMessage "system" system_content;
        mkMessage "user" ("Article Title: " ++ title);
        mkMessage "user" ("Article Description: " ++ description);
        mkMessage "user" ("Article Body: " ++ b)];
     req_temperature := 0.5;
     req_n := 1 |}.

(** The first choice of the completion, when the endpoint answers with one. *)
Definition summary_of (w : World) (req : ChatRequest) : option string :=
  match chat_completions_create w req with
  | inl _ => None
  | inr response => hd_error (choices response)
  end.

(** Lines 147 to 150 of main, evaluated against the oracles. *)
Definition speak_log (w : World) (c : OpenAI) (text : string) : M unit :=
  let tts := TTS_init w c "news" in
  match audio_speech_create w (speech_request text) with
  | inl why => ([EvSpeechCreate (speech_request text)], Raise (OpenAIError why))
  | inr audio =>
      match stream_to_file w (path tts) audio with
      | Some why =>
          ([EvSpeechCreate (speech_request text); EvStreamToFile (path tts) audio],
           Raise (OSError why))
      | None =>
          ([EvSpeechCreate (speech_request text); EvStreamToFile (path tts) audio;
            EvSleep 0.5; EvPlaysound (path_name (path tts))],
           match playsound w (path_name (path tts)) with
           | Some why => Raise (PlaysoundException why)
           | None => Return tt
           end)
      end
  end.

(** Lines 136 to 150 of main, evaluated against the oracles. *)
Definition summarise_log (w : World) (title description b : string) : M unit :=
  let req := chat_request title description b in
  match chat_completions_create w req with
  | inl why => ([EvChatCreate req], Raise (OpenAIError why))
  | inr response =>
      match choices response with
      | [] => ([EvChatCreate req], Raise IndexError)
      | first_choice :: _ =>
          bind (EvChatCreate req :: map EvPrint (choices response), Return tt)
            (fun _ => speak_log w (mkOpenAI (OPENAI_API_KEY w)) first_choice)
      end
  end.

(** The path a bare file name denotes. *)
Definition Path_of_name (name : string) : Path := mkPath false [name].

(** ** Concrete worlds *)

Module Demo.

(** A web given as a table from URL to what a GET does there.  The text of a
    response is identified with the URL it came from, so that the parser can
    be read off the same table. *)
Definition web : Type := list (string * (string + Tag)).

Fixpoint lookup (u : string) (pages : web) : option (string + Tag) :=
  match pages with
  | [] => None
  | (u', r) :: pages' => if String.eqb u u' then Some r else lookup u pages'
  end.

Definition empty_document : Tag := Element "[document]" [].

Definition world_of (pages : web) (chat : string + ChatCompletion)
    (speech : string + string) (write play : option string)
    (file dir : Path) : World :=
  {| requests_get := fun u _ =>
       match lookup u pages with
       | Some (inr _) => inr u
       | Some (inl why) => inl why
       | None => inl "404"
       end;
     bsoup := fun text _ =>
       match lookup text pages with
       | Some (inr doc) => doc
       | _ => empty_document
       end;
     chat_completions_create := fun _ => chat;
     audio_speech_create := fun _ => speech;
     stream_to_file := fun _ _ => write;
     playsound := fun _ => play;
     dunder_file := file;
     cwd := dir;
     OPENAI_API_KEY := "sk-demo" |}.

Definition rss_item (title description link : string) : Tag :=
  Element "item"
    [Element "title" [NavigableString title];
     Element "description" [NavigableString description];
     Element "link" [NavigableString link]].

Definition rss (items : list Tag) : Tag :=
  Element "[document]"
    [Element "rss"
       [Element "channel"
          (Element "title" [NavigableString "BBC News"]
           :: Element "link" [NavigableString "https://www.bbc.co.uk/news"]
           :: items)]].

Definition page_without_article : Tag :=
  Element "[document]"
    [Element "html" [Element "body" [Element "p" [NavigableString "Video only."]]]].

Definition page_with_article (text : string) : Tag :=
  Element "[document]"
    [Element "html"
       [Element "body" [Element "article" [Element "p" [NavigableString text]]]]].

Definition feed_url : string := "http://feeds.bbci.co.uk/news/rss.xml".

Definition item_a : Tag := rss_item "Headline A" "Desc A" "http://bbc/a".
Definition item_b : Tag := rss_item "Headline B" "Desc B" "http://bbc/b".
Definition item_c : Tag := rss_item "Headline C" "Desc C" "http://bbc/c".

Definition script : Path :=
  mkPath true ["home"; "user"; "News-Reader"; "ai_news.py"].
Definition script_dir : Path := mkPath true ["home"; "user"; "News-Reader"].
Definition home : Path := mkPath true ["home"; "user"].

Definition one_summary : string + ChatCompletion :=
  inr (mkChatCompletion ["Summary of the day."]).

(** Item a has no article on its page, item b has one.  The program is
    started from the user's home directory, one level above the script. *)
Definition second_has_body : World :=
  world_of
    [(feed_url, inr (rss [item_a; item_b; item_c]));
     ("http://bbc/a", inr page_without_article);
     ("http://bbc/b", inr (page_with_article "Body text B"));
     ("http://bbc/c", inr (page_with_article "Body text C"))]
    one_summary (inr "mp3-bytes") None None script home.

(** The same feed, started from the directory of the script. *)
Definition started_in_script_dir : World :=
  world_of
    [(feed_url, inr (rss [item_a; item_b; item_c]));
     ("http://bbc/a", inr page_without_article);
     ("http://bbc/b", inr (page_with_article "Body text B"));
     ("http://bbc/c", inr (page_with_article "Body text C"))]
    one_summary (inr "mp3-bytes") None None script script_dir.

(** Two items, neither page has an article element. *)
Definition no_bodies : World :=
  world_of
    [(feed_url, inr (rss [item_a; item_b]));
     ("http://bbc/a", inr page_without_article);
     ("http://bbc/b", inr page_without_article)]
    one_summary (inr "mp3-bytes") None None script script_dir.

(** The page of item b times out; item c would have had a body. *)
Definition second_times_out : World :=
  world_of
    [(feed_url, inr (rss [item_a; item_b; item_c]));
     ("http://bbc/a", inr page_without_article);
     ("http://bbc/b", inl "ReadTimeout");
     ("http://bbc/c", inr (page_with_article "Body text C"))]
    one_summary (inr "mp3-bytes") None None script script_dir.

(** One item whose title, description and article are all empty. *)
Definition blank_item : Tag :=
  Element "item"
    [Element "title" []; Element "description" [];
     Element "link" [NavigableString "http://bbc/blank"]].

Definition all_blank : World :=
  world_of
    [(feed_url, inr (rss [blank_item]));
     ("http://bbc/blank", inr (page_with_article ""))]
    one_summary (inr "mp3-bytes") None None script script_dir.

(** The speech endpoint refuses. *)
Definition speech_down : World :=
  world_of
    [(feed_url, inr (rss [item_b]));
     ("http://bbc/b", inr (page_with_article "Body text B"))]
    one_summary (inl "RateLimitError") None None script script_dir.

End Demo.

(** ** Further worlds and projections *)

Definition printed_lines (tr : list event) : list string :=
  flat_map (fun e => match e with EvPrint line => [line] | _ => [] end) tr.

(** The link texts of the items that have a link element, in feed order. *)
Definition item_links (items : list Tag) : list string :=
  flat_map (fun it => match link_text it with Some u => [u] | None => [] end) items.

Module Edge.

(** A feed with no item element. *)
Definition empty_feed : World :=
  Demo.world_of [(Demo.feed_url, inr (Demo.rss []))]
    Demo.one_summary (inr "mp3-bytes") None None Demo.script Demo.script_dir.

(** The feed itself cannot be fetched. *)
Definition feed_down : World :=
  Demo.world_of [(Demo.feed_url, inl "ConnectionError")]
    Demo.one_summary (inr "mp3-bytes") None None Demo.script Demo.script_dir.

Definition linkless_item : Tag :=
  Element "item"
    [Element "title" [NavigableString "Headline N"];
     Element "description" [NavigableString "Desc N"]].

(** The first item has no link element, the second has a page with a body. *)
Definition first_has_no_link : World :=
  Demo.world_of
    [(Demo.feed_url, inr (Demo.rss [linkless_item; Demo.item_b; Demo.item_c]));
     ("http://bbc/b", inr (Demo.page_with_article "Body text B"));
     ("http://bbc/c", inr (Demo.page_with_article "Body text C"))]
    Demo.one_summary (inr "mp3-bytes") None None Demo.script Demo.script_dir.

Definition untitled_item : Tag :=
  Element "item"
    [Element "description" [NavigableString "Desc U"];
     Element "link" [NavigableString "http://bbc/b"]].

(** The first item has a body behind its link but no title element. *)
Definition first_has_no_title : World :=
  Demo.world_of
    [(Demo.feed_url, inr (Demo.rss [untitled_item; Demo.item_c]));
     ("http://bbc/b", inr (Demo.page_with_article "Body text B"));
     ("http://bbc/c", inr (Demo.page_with_article "Body text C"))]
    Demo.one_summary (inr "mp3-bytes") None None Demo.script Demo.script_dir.

Definition one_article : Demo.web :=
  [(Demo.feed_url, inr (Demo.rss [Demo.item_b]));
   ("http://bbc/b", inr (Demo.page_with_article "Body text B"))].

(** The completion endpoint refuses. *)
Definition chat_down : World :=
  Demo.world_of one_article (inl "AuthenticationError") (inr "mp3-bytes")
    None None Demo.script Demo.script_dir.

(** The completion endpoint answers with no choice at all. *)
Definition no_choices : World :=
  Demo.world_of one_article (inr (mkChatCompletion [])) (inr "mp3-bytes")
    None None Demo.script Demo.script_dir.

(** The completion endpoint answers with two choices. *)
Definition two_choices : World :=
  Demo.world_of one_article (inr (mkChatCompletion ["First."; "Second."]))
    (inr "mp3-bytes") None None Demo.script Demo.script_dir.

(** The audio cannot be written. *)
Definition write_fails : World :=
  Demo.world_of one_article Demo.one_summary (inr "mp3-bytes")
    (Some "PermissionError") None Demo.script Demo.script_dir.

(** The page of the first item cannot be reached; the second has a body. *)
Definition first_unreachable : World :=
  Demo.world_of
    [(Demo.feed_url, inr (Demo.rss [Demo.item_a; Demo.item_b]));
     ("http://bbc/a", inl "ConnectTimeout");
     ("http://bbc/b", inr (Demo.page_with_article "Body text B"))]
    Demo.one_summary (inr "mp3-bytes") None None Demo.script Demo.script_dir.

Definition page_with_empty_article : Tag :=
  Element "[document]"
    [Element "html" [Element "body" [Element "article" []]]].

(** The page of the first item has an article element with no text in it;
    the second has a body. *)
Definition first_has_empty_article : World :=
  Demo.world_of
    [(Demo.feed_url, inr (Demo.rss [Demo.item_a; Demo.item_b]));
     ("http://bbc/a", inr page_with_empty_article);
     ("http://bbc/b", inr (Demo.page_with_article "Body text B"))]
    Demo.one_summary (inr "mp3-bytes") None None Demo.script Demo.script_dir.

End Edge.

(** The references the loop skips before it stops: the longest run of
    leading items whose extraction raises AttributeError. *)
Fixpoint skipped_prefix (w : World) (items : list Tag) : list Tag :=
  match items with
  | [] => []
  | it :: rest =>
      if skipped (page_status_of w it) then it :: skipped_prefix w rest else []
  end.

(** ** class TTSOld (pyttsx3) *)

Module Old.

(** The values ai_news.py stores in engine properties. *)
Inductive property_value : Type :=
| PInt (z : Z)
| PFloat (q : Q)
| PStr (s : string).

(** The calls made on pyttsx3 and on the engine it returns. *)
Inductive engine_call : Type :=
| CallInit
| CallSetProperty (name : string) (value : property_value)
| CallGetProperty (name : string)
| CallSay (text : string)
| CallRunAndWait
| CallStop.

(** What the speech driver of the machine answers. *)
Record Pyttsx3 : Type := mkPyttsx3 {
  (** [Some cls] when [pyttsx3.init()] raises an exception of class [cls] *)
  init_raises : option string;
  (** the [id] of each voice in [engine.getProperty('voices')] *)
  voice_ids : list string
}.

Definition MO (A : Type) : Type := (list engine_call * outcome A)%type.

Definition retO {A} (a : A) : MO A := ([], Return a).

Definition raiseO {A} (e : exn) : MO A := ([], Raise e).

Definition callO (c : engine_call) : MO unit := ([c], Return tt).

Definition bindO {A B} (m : MO A) (f : A -> MO B) : MO B :=
  match snd m with
  | Return a => (fst m ++ fst (f a), snd (f a))
  | Raise e => (fst m, Raise e)
  | OutOfFuel => (fst m, OutOfFuel)
  end.

Definition getitemO {A} (xs : list A) (i : nat) : MO A :=
  match nth_error xs i with
  | Some x => retO x
  | None => raiseO IndexError
  end.

Record TTSOld : Type := mkTTSOld { engine : Pyttsx3 }.

Definition pyttsx3_init (p : Pyttsx3) : MO Pyttsx3 :=
  bindO (callO CallInit) (fun _ =>
  match init_raises p with
  | Some cls => raiseO (UserDefined cls)
  | None => retO p
  end).

Definition setProperty (e : Pyttsx3) (name : string) (value : property_value) : MO unit :=
  callO (CallSetProperty name value).

Definition getProperty_voices (e : Pyttsx3) : MO (list string) :=
  bindO (callO (CallGetProperty "voices")) (fun _ => retO (voice_ids e)).

Definition TTSOld_init (p : Pyttsx3) : MO TTSOld :=
  bindO (pyttsx3_init p) (fun e =>
  bindO (setProperty e "rate" (PInt 125)) (fun _ =>
  bindO (setProperty e "volume" (PFloat 1.0)) (fun _ =>
  bindO (getProperty_voices e) (fun voices =>
  bindO (getitemO voices 1) (fun voice_id =>
  bindO (setProperty e "voice" (PStr voice_id)) (fun _ =>
  retO {| engine := e |})))))).

Definition say_text (self : TTSOld) (text : string) : MO unit :=
  bindO (callO (CallSay text)) (fun _ =>
  bindO (callO CallRunAndWait) (fun _ =>
  callO CallStop)).

End Old.

(** ** The monad *)

(** The two ways through the head of the loop. *)
Lemma while_not_found_step w self fuel articles l :
  found_article l = false ->
  while_not_found w (S fuel) self articles l =
  bind (try_next_article w self articles l) (while_not_found w fuel self articles).
Proof. intros H. simpl. rewrite H. reflexivity. Qed.

Lemma while_not_found_done w self fuel articles l :
  found_article l = true ->
  while_not_found w fuel self articles l = ret l.
Proof. intros H. destruct fuel; simpl; rewrite H; reflexivity. Qed.

Arguments while_not_found : simpl never.

(** Runs the monadic glue of a goal, leaving oracle answers in place. *)
Ltac run_m :=
  cbv beta iota zeta delta
    [bind ret raise emit out_of_fuel fst snd trace result dot_text getitem
     read_local print];
  simpl.

Lemma bind_trace {A B} (m : M A) (f : A -> M B) :
  trace (bind m f) =
  trace m ++ match result m with Return a => trace (f a) | _ => [] end.
Proof.
  unfold trace, result, bind.
  destruct (snd m); simpl; auto using app_nil_r.
Qed.

Lemma bind_result {A B} (m : M A) (f : A -> M B) :
  result (bind m f) =
  match result m with
  | Return a => result (f a)
  | Raise e => Raise e
  | OutOfFuel => OutOfFuel
  end.
Proof.
  unfold result, bind. destruct (snd m); reflexivity.
Qed.

Lemma M_eta {A} (m : M A) : m = (trace m, result m).
Proof. destruct m; reflexivity. Qed.

Lemma M_ext {A} (m1 m2 : M A) :
  trace m1 = trace m2 -> result m1 = result m2 -> m1 = m2.
Proof.
  destruct m1, m2; simpl; intros -> ->; reflexivity.
Qed.

Lemma bind_ret_l {A B} (a : A) (f : A -> M B) : bind (ret a) f = f a.
Proof. apply M_ext; [rewrite bind_trace | rewrite bind_result]; reflexivity. Qed.

Lemma bind_raise {A B} tr (e : exn) (f : A -> M B) :
  bind (tr, Raise e) f = (tr, Raise e).
Proof. reflexivity. Qed.

Lemma bind_return {A B} tr (a : A) (f : A -> M B) :
  bind (tr, Return a) f = (tr ++ trace (f a), result (f a)).
Proof. reflexivity. Qed.

(** ** One reference *)

Section Resolver.

Variable w : World.
Variable self : News.

Lemma _get_body_article (u : string) :
  _get_body w self u "xml" "article" =
  ([EvRequest u 10],
   match requests_get w u 10 with
   | inl why => Raise (RequestException why)
   | inr text =>
       match find "article" (bsoup w text "xml") with
       | None => Raise AttributeError
       | Some art => Return (get_text art)
       end
   end).
Proof.
  unfold _get_body, _get_soup, requests_dot_get, dot_text.
  destruct (requests_get w u 10) as [why | text]; [reflexivity |].
  unfold bind; simpl.
  destruct (find "article" (bsoup w text "xml")); reflexivity.
Qed.

(** What one pass of the loop does, by the status of the page. *)
Lemma try_next_article_status (articles : list Tag) (l : locals) (item : Tag) :
  nth_error articles (counter l) = Some item ->
  try_next_article w self articles l =
  match page_status_of w item with
  | NoLink | Bodyless =>
      (link_requests item ++ [EvPrint skip_line],
       Return {| found_article := found_article l;
                 counter := counter l + 1;
                 body := body l |})
  | Unreachable why => (link_requests item, Raise (RequestException why))
  | HasBody b =>
      (link_requests item,
       Return {| found_article := true; counter := counter l; body := Some b |})
  end.
Proof.
  intros Hnth.
  unfold try_next_article, getitem, page_status_of, link_requests, link_text.
  rewrite Hnth, bind_ret_l.
  destruct (find "link" item) as [lk |]; simpl; [| reflexivity].
  rewrite bind_ret_l, _get_body_article.
  destruct (requests_get w (get_text lk) 10) as [why | text]; [reflexivity |].
  destruct (find "article" (bsoup w text "xml")); reflexivity.
Qed.

Lemma try_next_article_exhausted (articles : list Tag) (l : locals) :
  nth_error articles (counter l) = None ->
  try_next_article w self articles l = ([], Raise IndexError).
Proof.
  intros Hnth. unfold try_next_article, getitem. rewrite Hnth. reflexivity.
Qed.

(** Skipping a run of references whose extraction raises AttributeError. *)
Lemma while_not_found_skips (pre : list Tag) :
  forall (done rest : list Tag) (l : locals) (fuel : nat),
    found_article l = false ->
    counter l = length done ->
    forallb (fun it => skipped (page_status_of w it)) pre = true ->
    let l' := {| found_article := false;
                 counter := length done + length pre;
                 body := body l |} in
    while_not_found w (length pre + fuel) self (done ++ pre ++ rest) l =
    (skip_trace pre ++ trace (while_not_found w fuel self (done ++ pre ++ rest) l'),
     result (while_not_found w fuel self (done ++ pre ++ rest) l')).
Proof.
  induction pre as [| it pre IH]; intros done rest l fuel Hf Hc Hall l'.
  - subst l'. simpl. rewrite Nat.add_0_r, <- Hc, <- Hf.
    destruct l; simpl. apply M_eta.
  - simpl in Hall. apply andb_true_iff in Hall as [Hit Hall].
    change (length (it :: pre) + fuel) with (S (length pre + fuel)).
    rewrite while_not_found_step by assumption.
    assert (Hnth : nth_error (done ++ (it :: pre) ++ rest) (counter l) = Some it).
    { rewrite Hc, nth_error_app2, Nat.sub_diag by lia. reflexivity. }
    rewrite (try_next_article_status _ _ _ Hnth).
    assert (Hlist : done ++ (it :: pre) ++ rest = (done ++ [it]) ++ pre ++ rest).
    { rewrite <- app_assoc. reflexivity. }
    set (l1 := {| found_article := found_article l;
                  counter := counter l + 1; body := body l |}).
    assert (Hstep : while_not_found w (length pre + fuel) self
                      (done ++ (it :: pre) ++ rest) l1 =
                    (skip_trace pre ++
                       trace (while_not_found w fuel self (done ++ (it :: pre) ++ rest) l'),
                     result (while_not_found w fuel self (done ++ (it :: pre) ++ rest) l'))).
    { rewrite Hlist.
      rewrite (IH (done ++ [it]) rest l1 fuel); subst l1; simpl; auto.
      - subst l'. rewrite length_app. simpl.
        replace (length done + 1 + length pre) with (length done + S (length pre)) by lia.
        reflexivity.
      - rewrite length_app. simpl. lia. }
    destruct (page_status_of w it); try discriminate Hit;
      rewrite bind_return, Hstep; simpl;
      rewrite <- !app_assoc; reflexivity.
Qed.

End Resolver.

(** ** The whole resolver *)

Section GetHeadlines.

Variable w : World.

(** The loop, started on a feed whose first references are all skipped and
    whose next reference is not. *)
Lemma while_not_found_stops_at (self : News) (pre post : list Tag) (item : Tag) (fuel : nat) :
  forallb (fun it => skipped (page_status_of w it)) pre = true ->
  skipped (page_status_of w item) = false ->
  length pre < fuel ->
  while_not_found w fuel self (pre ++ item :: post) start =
  (skip_trace pre ++ link_requests item,
   match page_status_of w item with
   | HasBody b =>
       Return {| found_article := true; counter := length pre; body := Some b |}
   | Unreachable why => Raise (RequestException why)
   | _ => Raise AttributeError
   end).
Proof.
  intros Hpre Hitem Hfuel.
  set (f := fuel - length pre - 1).
  replace fuel with (length pre + S f) by lia.
  pose proof (while_not_found_skips w self pre [] (item :: post) start
                (S f) eq_refl eq_refl Hpre) as Hskip.
  cbv zeta in Hskip.
  change ([] ++ pre ++ item :: post) with (pre ++ item :: post) in Hskip.
  change (length [] + length pre) with (length pre) in Hskip.
  rewrite Hskip. clear Hskip.
  rewrite while_not_found_step by reflexivity.
  assert (Hnth : nth_error (pre ++ item :: post) (length pre) = Some item).
  { rewrite nth_error_app2, Nat.sub_diag by lia. reflexivity. }
  rewrite (try_next_article_status w self _
             {| found_article := false; counter := length pre; body := body start |}
             item Hnth).
  destruct (page_status_of w item); try discriminate Hitem.
  - reflexivity.
  - rewrite bind_return, while_not_found_done by reflexivity.
    simpl. rewrite app_nil_r. reflexivity.
Qed.

(** The loop, started on a feed all of whose references are skipped. *)
Lemma while_not_found_exhausts (self : News) (articles : list Tag) (fuel : nat) :
  forallb (fun it => skipped (page_status_of w it)) articles = true ->
  length articles < fuel ->
  while_not_found w fuel self articles start =
  (skip_trace articles, Raise IndexError).
Proof.
  intros Hall Hfuel.
  set (f := fuel - length articles - 1).
  replace fuel with (length articles + S f) by lia.
  pose proof (while_not_found_skips w self articles [] [] start
                (S f) eq_refl eq_refl Hall) as Hskip.
  cbv zeta in Hskip.
  change ([] ++ articles ++ []) with (articles ++ []) in Hskip.
  change (length [] + length articles) with (length articles) in Hskip.
  rewrite app_nil_r in Hskip.
  rewrite Hskip. clear Hskip.
  rewrite while_not_found_step by reflexivity.
  rewrite try_next_article_exhausted.
  - simpl. rewrite app_nil_r. reflexivity.
  - simpl. apply nth_error_None. lia.
Qed.

Lemma get_headlines_from_feed (fuel : nat) (articles : list Tag) :
  feed_items w = Some articles ->
  get_headlines w fuel BBCNews_init =
  bind ([feed_request], Return tt)
    (fun _ =>
       l <- while_not_found w fuel BBCNews_init articles start;;
       first <- getitem articles 0;;
       title <- dot_text (find "title" first);;
       first' <- getitem articles 0;;
       description <- dot_text (find "description" first');;
       b <- read_local (body l);;
       ret (title, description, b)).
Proof.
  unfold feed_items, get_headlines, _get_soup, requests_dot_get.
  destruct (requests_get w (url BBCNews_init) 10) as [why | text]; [discriminate |].
  intros [= <-]. reflexivity.
Qed.

(** A feed that cannot be fetched ends the run at once. *)
Lemma get_headlines_feed_unreachable (fuel : nat) (why : string) :
  requests_get w (url BBCNews_init) 10 = inl why ->
  get_headlines w fuel BBCNews_init = ([feed_request], Raise (RequestException why)).
Proof.
  intros H. unfold get_headlines, _get_soup, requests_dot_get.
  rewrite H. reflexivity.
Qed.

(** The resolver's answer when the first [length pre] references are skipped
    and the next one is not. *)
Lemma get_headlines_stops_at (fuel : nat) (articles pre post : list Tag) (item : Tag) :
  feed_items w = Some articles ->
  articles = pre ++ item :: post ->
  forallb (fun it => skipped (page_status_of w it)) pre = true ->
  skipped (page_status_of w item) = false ->
  length pre < fuel ->
  get_headlines w fuel BBCNews_init =
  (feed_request :: skip_trace pre ++ link_requests item,
   match page_status_of w item with
   | HasBody b =>
       match title_of (hd item pre), description_of (hd item pre) with
       | Some t, Some d => Return (t, d, b)
       | _, _ => Raise AttributeError
       end
   | Unreachable why => Raise (RequestException why)
   | _ => Raise AttributeError
   end).
Proof.
  intros Hfeed -> Hpre Hitem Hfuel.
  rewrite (get_headlines_from_feed fuel _ Hfeed), bind_return.
  rewrite (while_not_found_stops_at BBCNews_init pre post item fuel Hpre Hitem Hfuel).
  assert (H0 : nth_error (pre ++ item :: post) 0 = Some (hd item pre))
    by (destruct pre; reflexivity).
  unfold getitem. rewrite H0. clear H0.
  unfold title_of, description_of.
  destruct (page_status_of w item); try discriminate Hitem; try reflexivity.
  rewrite bind_return, bind_ret_l.
  destruct (find "title" (hd item pre)); run_m; rewrite ?app_nil_r; [| reflexivity].
  destruct (find "description" (hd item pre)); run_m; rewrite ?app_nil_r; reflexivity.
Qed.

(** The resolver's answer when every reference of the feed is skipped. *)
Lemma get_headlines_exhausts (fuel : nat) (articles : list Tag) :
  feed_items w = Some articles ->
  forallb (fun it => skipped (page_status_of w it)) articles = true ->
  length articles < fuel ->
  get_headlines w fuel BBCNews_init =
  (feed_request :: skip_trace articles, Raise IndexError).
Proof.
  intros Hfeed Hall Hfuel.
  rewrite (get_headlines_from_feed fuel _ Hfeed), bind_return.
  rewrite (while_not_found_exhausts BBCNews_init articles fuel Hall Hfuel).
  reflexivity.
Qed.

End GetHeadlines.

(** ** What the scraper can and cannot do *)

Lemma link_requests_scraper (item : Tag) :
  forallb is_scraper_event (link_requests item) = true.
Proof. unfold link_requests. destruct (link_text item); reflexivity. Qed.

Lemma try_next_article_scraper w self articles l :
  forallb is_scraper_event (trace (try_next_article w self articles l)) = true.
Proof.
  destruct (nth_error articles (counter l)) as [item |] eqn:Hnth.
  - rewrite (try_next_article_status w self _ _ _ Hnth).
    destruct (page_status_of w item); simpl;
      rewrite ?forallb_app, link_requests_scraper; reflexivity.
  - rewrite (try_next_article_exhausted w self _ _ Hnth). reflexivity.
Qed.

Lemma while_not_found_scraper w self articles fuel :
  forall l, forallb is_scraper_event (trace (while_not_found w fuel self articles l)) = true.
Proof.
  induction fuel as [| fuel IH]; intros l.
  - destruct (found_article l) eqn:Hf.
    + rewrite while_not_found_done by assumption. reflexivity.
    + unfold while_not_found. rewrite Hf. reflexivity.
  - destruct (found_article l) eqn:Hf.
    + rewrite while_not_found_done by assumption. reflexivity.
    + rewrite while_not_found_step, bind_trace, forallb_app by assumption.
      rewrite try_next_article_scraper. simpl.
      destruct (result (try_next_article w self articles l)); auto.
Qed.

Lemma get_headlines_scraper w fuel self :
  forallb is_scraper_event (trace (get_headlines w fuel self)) = true.
Proof.
  unfold get_headlines, _get_soup, requests_dot_get.
  destruct (requests_get w (url self) 10) as [why | text]; [reflexivity |].
  rewrite bind_trace. simpl.
  generalize (find_all "item" (bsoup w text "xml")). intros articles.
  rewrite bind_trace, forallb_app.
  rewrite while_not_found_scraper. simpl. fold start.
  destruct (result (while_not_found w fuel self articles start)) as [l | e |];
    try reflexivity.
  unfold getitem. destruct (nth_error articles 0) as [first |]; [| reflexivity].
  rewrite !bind_ret_l.
  destruct (find "title" first); [| reflexivity].
  run_m. destruct (find "description" first); [| reflexivity].
  run_m. destruct (body l); reflexivity.
Qed.

Lemma scraper_projections (tr : list event) :
  forallb is_scraper_event tr = true ->
  chat_requests tr = [] /\ speech_requests tr = [] /\
  written_paths tr = [] /\ played_sounds tr = [] /\
  Forall (fun t => t = 10%Z) (request_timeouts tr).
Proof.
  induction tr as [| e tr IH]; simpl; intros H.
  - repeat split; constructor.
  - apply andb_true_iff in H as [He Htr].
    destruct (IH Htr) as (Hc & Hs & Hw & Hp & Ht).
    destruct e; simpl in He; try discriminate He; simpl; repeat split; auto.
    constructor; [apply Z.eqb_eq; assumption | assumption].
Qed.

(** ** Termination of the loop *)

(** Each pass either ends the loop or moves [counter] one step towards the
    end of the list, and indexing past the end raises: [length articles -
    counter + 1] passes are always enough. *)
Lemma while_not_found_total w self articles fuel :
  forall l,
    length articles - counter l < fuel ->
    result (while_not_found w fuel self articles l) <> OutOfFuel.
Proof.
  induction fuel as [| fuel IH]; intros l Hfuel; [lia |].
  destruct (found_article l) eqn:Hf.
  - rewrite while_not_found_done by assumption. discriminate.
  - rewrite while_not_found_step, bind_result by assumption.
    destruct (nth_error articles (counter l)) as [item |] eqn:Hnth.
    + assert (Hlt : counter l < length articles)
        by (apply nth_error_Some; rewrite Hnth; discriminate).
      rewrite (try_next_article_status w self _ _ _ Hnth).
      destruct (page_status_of w item); simpl; try discriminate.
      * apply IH. simpl. lia.
      * apply IH. simpl. lia.
      * rewrite while_not_found_done by reflexivity. discriminate.
    + rewrite (try_next_article_exhausted w self _ _ Hnth). discriminate.
Qed.

Lemma get_headlines_total w fuel (articles : list Tag) :
  feed_items w = Some articles ->
  length articles < fuel ->
  result (get_headlines w fuel BBCNews_init) <> OutOfFuel.
Proof.
  intros Hfeed Hfuel.
  rewrite (get_headlines_from_feed w fuel _ Hfeed), bind_result. simpl.
  rewrite bind_result.
  pose proof (while_not_found_total w BBCNews_init articles fuel start) as Htot.
  destruct (result (while_not_found w fuel BBCNews_init articles start)) as [l | e |];
    [| discriminate | exfalso; apply Htot; [simpl; lia | reflexivity]].
  unfold getitem. destruct (nth_error articles 0) as [first |]; [| discriminate].
  rewrite !bind_ret_l.
  destruct (find "title" first); [| discriminate].
  run_m. destruct (find "description" first); [| discriminate].
  run_m. destruct (body l); discriminate.
Qed.

(** ** The run of main after the resolver *)

Lemma for_each_print (xs : list string) :
  for_each xs print = (map EvPrint xs, Return tt).
Proof.
  induction xs as [| x xs IH]; [reflexivity |].
  simpl. rewrite IH. reflexivity.
Qed.

Lemma create_audio_run (w : World) (c : OpenAI) (text : string) :
  create_audio w (TTS_init w c "news") text =
  match audio_speech_create w (speech_request text) with
  | inl why => ([EvSpeechCreate (speech_request text)], Raise (OpenAIError why))
  | inr audio =>
      ([EvSpeechCreate (speech_request text);
        EvStreamToFile (path (TTS_init w c "news")) audio],
       match stream_to_file w (path (TTS_init w c "news")) audio with
       | Some why => Raise (OSError why)
       | None => Return tt
       end)
  end.
Proof.
  unfold create_audio, speech_create, response_stream_to_file, speech_request.
  destruct (audio_speech_create w _) as [why | audio]; [reflexivity |].
  unfold bind. simpl.
  destruct (stream_to_file w _ audio); reflexivity.
Qed.

Lemma speak_run (w : World) (c : OpenAI) (text : string) :
  (create_audio w (TTS_init w c "news") text;;
   sleep 0.5;;
   play_audio w (TTS_init w c "news")) = speak_log w c text.
Proof.
  rewrite create_audio_run. unfold speak_log, play_audio, playsound_call, sleep.
  destruct (audio_speech_create w _) as [why | audio]; [reflexivity |].
  destruct (stream_to_file w _ audio); [reflexivity |].
  unfold bind. simpl.
  destruct (playsound w _); reflexivity.
Qed.

Lemma main_run (w : World) (fuel : nat) :
  main w fuel =
  bind (get_headlines w fuel BBCNews_init)
    (fun tdb => let '(title, description, b) := tdb in
                summarise_log w title description b).
Proof.
  unfold main.
  destruct (get_headlines w fuel BBCNews_init) as [tr [[[t d] b] | e |]];
    try reflexivity.
  rewrite !bind_return. cbv beta iota zeta.
  match goal with
  | |- (_ ++ trace ?x, result ?x) = _ =>
      assert (H : x = summarise_log w t d b); [| rewrite H; reflexivity]
  end.
  unfold summarise_log, run_ai, chat_create. cbv zeta.
  repeat match goal with
  | |- context [chat_completions_create w ?r] =>
      lazymatch r with
      | chat_request _ _ _ => fail
      | _ => change r with (chat_request t d b)
      end
  end.
  destruct (chat_completions_create w (chat_request t d b)) as [why | response];
    [reflexivity |].
  unfold emit. rewrite bind_return. cbn [trace result ret app fst snd].
  rewrite bind_return. cbn [trace result ret app fst snd].
  rewrite bind_return. cbv beta. cbn [fst].
  rewrite for_each_print, bind_return.
  unfold getitem.
  destruct (choices response) as [| c cs]; [reflexivity |].
  cbn [nth_error]. rewrite bind_ret_l, speak_run, bind_return.
  cbn [trace result app map fst snd]. reflexivity.
Qed.

(** A resolver that does not return leaves nothing for main to do. *)
Lemma main_without_headlines (w : World) (fuel : nat) (e : exn) :
  result (get_headlines w fuel BBCNews_init) = Raise e ->
  main w fuel = (trace (get_headlines w fuel BBCNews_init), Raise e).
Proof.
  intros H. rewrite main_run.
  destruct (get_headlines w fuel BBCNews_init) as [tr r]. simpl in H. subst r.
  reflexivity.
Qed.

Lemma main_with_headlines (w : World) (fuel : nat) (t d b : string) :
  result (get_headlines w fuel BBCNews_init) = Return (t, d, b) ->
  main w fuel =
  (trace (get_headlines w fuel BBCNews_init) ++ trace (summarise_log w t d b),
   result (summarise_log w t d b)).
Proof.
  intros H. rewrite main_run.
  destruct (get_headlines w fuel BBCNews_init) as [tr r]. simpl in H. subst r.
  reflexivity.
Qed.

Lemma chat_requests_app (a b : list event) :
  chat_requests (a ++ b) = chat_requests a ++ chat_requests b.
Proof. apply flat_map_app. Qed.

Lemma speech_requests_app (a b : list event) :
  speech_requests (a ++ b) = speech_requests a ++ speech_requests b.
Proof. apply flat_map_app. Qed.

Lemma played_sounds_app (a b : list event) :
  played_sounds (a ++ b) = played_sounds a ++ played_sounds b.
Proof. apply flat_map_app. Qed.

Lemma written_paths_app (a b : list event) :
  written_paths (a ++ b) = written_paths a ++ written_paths b.
Proof. apply flat_map_app. Qed.

Lemma request_timeouts_app (a b : list event) :
  request_timeouts (a ++ b) = request_timeouts a ++ request_timeouts b.
Proof. apply flat_map_app. Qed.

Lemma chat_requests_prints (xs : list string) (tr : list event) :
  chat_requests (map EvPrint xs ++ tr) = chat_requests tr.
Proof. induction xs; simpl; auto. Qed.

Lemma speech_requests_prints (xs : list string) (tr : list event) :
  speech_requests (map EvPrint xs ++ tr) = speech_requests tr.
Proof. induction xs; simpl; auto. Qed.

Lemma played_sounds_prints (xs : list string) (tr : list event) :
  played_sounds (map EvPrint xs ++ tr) = played_sounds tr.
Proof. induction xs; simpl; auto. Qed.

Lemma written_paths_prints (xs : list string) (tr : list event) :
  written_paths (map EvPrint xs ++ tr) = written_paths tr.
Proof. induction xs; simpl; auto. Qed.

Lemma request_timeouts_prints (xs : list string) (tr : list event) :
  request_timeouts (map EvPrint xs ++ tr) = request_timeouts tr.
Proof. induction xs; simpl; auto. Qed.

(** ** What main sends out, by receiver *)

Lemma speak_log_speech (w : World) (c : OpenAI) (text : string) :
  speech_requests (trace (speak_log w c text)) = [speech_request text].
Proof.
  unfold speak_log.
  destruct (audio_speech_create w _) as [why | audio]; [reflexivity |].
  destruct (stream_to_file w _ audio); reflexivity.
Qed.

Lemma speak_log_chat (w : World) (c : OpenAI) (text : string) :
  chat_requests (trace (speak_log w c text)) = [].
Proof.
  unfold speak_log.
  destruct (audio_speech_create w _) as [why | audio]; [reflexivity |].
  destruct (stream_to_file w _ audio); reflexivity.
Qed.

Lemma speak_log_played (w : World) (c : OpenAI) (text : string) :
  played_sounds (trace (speak_log w c text)) =
  match result (create_audio w (TTS_init w c "news") text) with
  | Return _ => [path_name (path (TTS_init w c "news"))]
  | _ => []
  end.
Proof.
  rewrite create_audio_run. unfold speak_log.
  destruct (audio_speech_create w _) as [why | audio]; [reflexivity |].
  simpl. destruct (stream_to_file w _ audio); reflexivity.
Qed.

Lemma speak_log_written (w : World) (c : OpenAI) (text : string) :
  written_paths (trace (speak_log w c text)) =
  match audio_speech_create w (speech_request text) with
  | inl _ => []
  | inr _ => [path (TTS_init w c "news")]
  end.
Proof.
  unfold speak_log.
  destruct (audio_speech_create w _) as [why | audio]; [reflexivity |].
  destruct (stream_to_file w _ audio); reflexivity.
Qed.

Lemma speak_log_requests (w : World) (c : OpenAI) (text : string) :
  request_timeouts (trace (speak_log w c text)) = [].
Proof.
  unfold speak_log.
  destruct (audio_speech_create w _) as [why | audio]; [reflexivity |].
  destruct (stream_to_file w _ audio); reflexivity.
Qed.

Lemma summarise_log_trace (w : World) (t d b : string) :
  trace (summarise_log w t d b) =
  match summary_of w (chat_request t d b) with
  | None => [EvChatCreate (chat_request t d b)]
  | Some s =>
      EvChatCreate (chat_request t d b)
        :: map EvPrint
             (match chat_completions_create w (chat_request t d b) with
              | inl _ => []
              | inr response => choices response
              end)
        ++ trace (speak_log w (mkOpenAI (OPENAI_API_KEY w)) s)
  end.
Proof.
  unfold summarise_log, summary_of.
  destruct (chat_completions_create w (chat_request t d b)) as [why | response];
    [reflexivity |].
  destruct (choices response) as [| c cs]; reflexivity.
Qed.

Lemma summarise_log_chat (w : World) (t d b : string) :
  chat_requests (trace (summarise_log w t d b)) = [chat_request t d b].
Proof.
  rewrite summarise_log_trace.
  destruct (summary_of w (chat_request t d b)); [| reflexivity].
  simpl. rewrite chat_requests_prints, speak_log_chat. reflexivity.
Qed.

Lemma summarise_log_speech (w : World) (t d b : string) :
  speech_requests (trace (summarise_log w t d b)) =
  match summary_of w (chat_request t d b) with
  | None => []
  | Some s => [speech_request s]
  end.
Proof.
  rewrite summarise_log_trace.
  destruct (summary_of w (chat_request t d b)); [| reflexivity].
  simpl. rewrite speech_requests_prints, speak_log_speech. reflexivity.
Qed.

Lemma summarise_log_played (w : World) (t d b : string) :
  played_sounds (trace (summarise_log w t d b)) =
  match summary_of w (chat_request t d b) with
  | None => []
  | Some s => played_sounds (trace (speak_log w (mkOpenAI (OPENAI_API_KEY w)) s))
  end.
Proof.
  rewrite summarise_log_trace.
  destruct (summary_of w (chat_request t d b)); [| reflexivity].
  simpl. rewrite played_sounds_prints. reflexivity.
Qed.

Lemma summarise_log_written (w : World) (t d b : string) :
  written_paths (trace (summarise_log w t d b)) =
  match summary_of w (chat_request t d b) with
  | None => []
  | Some s => written_paths (trace (speak_log w (mkOpenAI (OPENAI_API_KEY w)) s))
  end.
Proof.
  rewrite summarise_log_trace.
  destruct (summary_of w (chat_request t d b)); [| reflexivity].
  simpl. rewrite written_paths_prints. reflexivity.
Qed.

Lemma summarise_log_requests (w : World) (t d b : string) :
  request_timeouts (trace (summarise_log w t d b)) = [].
Proof.
  rewrite summarise_log_trace.
  destruct (summary_of w (chat_request t d b)); [| reflexivity].
  simpl. rewrite request_timeouts_prints, speak_log_requests. reflexivity.
Qed.

(** Main's log is the resolver's, followed by the rest when the resolver
    returns. *)
Lemma main_trace (w : World) (fuel : nat) :
  trace (main w fuel) =
  trace (get_headlines w fuel BBCNews_init) ++
  match result (get_headlines w fuel BBCNews_init) with
  | Return (t, d, b) => trace (summarise_log w t d b)
  | _ => []
  end.
Proof.
  rewrite main_run, bind_trace.
  destruct (result (get_headlines w fuel BBCNews_init)) as [[[t d] b] | e |];
    reflexivity.
Qed.

Lemma main_result (w : World) (fuel : nat) :
  result (main w fuel) =
  match result (get_headlines w fuel BBCNews_init) with
  | Return (t, d, b) => result (summarise_log w t d b)
  | Raise e => Raise e
  | OutOfFuel => OutOfFuel
  end.
Proof.
  rewrite main_run, bind_result.
  destruct (result (get_headlines w fuel BBCNews_init)) as [[[t d] b] | e |];
    reflexivity.
Qed.

Lemma main_chat (w : World) (fuel : nat) :
  chat_requests (trace (main w fuel)) =
  match result (get_headlines w fuel BBCNews_init) with
  | Return (t, d, b) => [chat_request t d b]
  | _ => []
  end.
Proof.
  rewrite main_trace, chat_requests_app.
  destruct (scraper_projections _ (get_headlines_scraper w fuel BBCNews_init))
    as (-> & _).
  destruct (result (get_headlines w fuel BBCNews_init)) as [[[t d] b] | e |];
    try reflexivity.
  apply summarise_log_chat.
Qed.

Lemma main_speech (w : World) (fuel : nat) :
  speech_requests (trace (main w fuel)) =
  match result (get_headlines w fuel BBCNews_init) with
  | Return (t, d, b) =>
      match summary_of w (chat_request t d b) with
      | None => []
      | Some s => [speech_request s]
      end
  | _ => []
  end.
Proof.
  rewrite main_trace, speech_requests_app.
  destruct (scraper_projections _ (get_headlines_scraper w fuel BBCNews_init))
    as (_ & -> & _).
  destruct (result (get_headlines w fuel BBCNews_init)) as [[[t d] b] | e |];
    try reflexivity.
  apply summarise_log_speech.
Qed.

Lemma main_played (w : World) (fuel : nat) :
  played_sounds (trace (main w fuel)) =
  match result (get_headlines w fuel BBCNews_init) with
  | Return (t, d, b) =>
      match summary_of w (chat_request t d b) with
      | None => []
      | Some s => played_sounds (trace (speak_log w (mkOpenAI (OPENAI_API_KEY w)) s))
      end
  | _ => []
  end.
Proof.
  rewrite main_trace, played_sounds_app.
  destruct (scraper_projections _ (get_headlines_scraper w fuel BBCNews_init))
    as (_ & _ & _ & -> & _).
  destruct (result (get_headlines w fuel BBCNews_init)) as [[[t d] b] | e |];
    try reflexivity.
  apply summarise_log_played.
Qed.

Lemma main_written (w : World) (fuel : nat) :
  written_paths (trace (main w fuel)) =
  match result (get_headlines w fuel BBCNews_init) with
  | Return (t, d, b) =>
      match summary_of w (chat_request t d b) with
      | None => []
      | Some s => written_paths (trace (speak_log w (mkOpenAI (OPENAI_API_KEY w)) s))
      end
  | _ => []
  end.
Proof.
  rewrite main_trace, written_paths_app.
  destruct (scraper_projections _ (get_headlines_scraper w fuel BBCNews_init))
    as (_ & _ & -> & _).
  destruct (result (get_headlines w fuel BBCNews_init)) as [[[t d] b] | e |];
    try reflexivity.
  apply summarise_log_written.
Qed.

(** ** Sample runs *)

Example second_has_body_run :
  main Demo.second_has_body 2 =
  ([EvRequest Demo.feed_url 10;
    EvRequest "http://bbc/a" 10;
    EvPrint "Article not found, trying next article.";
    EvRequest "http://bbc/b" 10;
    EvChatCreate (chat_request "Headline A" "Desc A" "Body text B");
    EvPrint "Summary of the day.";
    EvSpeechCreate (speech_request "Summary of the day.");
    EvStreamToFile (mkPath true ["home"; "user"; "News-Reader"; "news.mp3"]) "mp3-bytes";
    EvSleep 0.5;
    EvPlaysound "news.mp3"],
   Return tt).
Proof. vm_compute. reflexivity. Qed.

Example second_has_body_out_of_fuel :
  result (main Demo.second_has_body 1) = OutOfFuel.
Proof. vm_compute. reflexivity. Qed.

Example no_bodies_run :
  main Demo.no_bodies 3 =
  ([EvRequest Demo.feed_url 10;
    EvRequest "http://bbc/a" 10;
    EvPrint "Article not found, trying next article.";
    EvRequest "http://bbc/b" 10;
    EvPrint "Article not found, trying next article."],
   Raise IndexError).
Proof. vm_compute. reflexivity. Qed.

Example second_times_out_run :
  main Demo.second_times_out 5 =
  ([EvRequest Demo.feed_url 10;
    EvRequest "http://bbc/a" 10;
    EvPrint "Article not found, trying next article.";
    EvRequest "http://bbc/b" 10],
   Raise (RequestException "ReadTimeout")).
Proof. vm_compute. reflexivity. Qed.

(** ** The resolver (BBCNews.get_headlines) *)

Lemma bodyless_are_skipped (w : World) (items : list Tag) :
  Forall (fun it => page_status_of w it = Bodyless) items ->
  forallb (fun it => skipped (page_status_of w it)) items = true.
Proof.
  induction 1 as [| it items Hit _ IH]; [reflexivity |].
  simpl. rewrite Hit, IH. reflexivity.
Qed.

Lemma hd_error_hd {A} (xs pre post : list A) (x first : A) :
  xs = pre ++ x :: post -> hd_error xs = Some first -> hd x pre = first.
Proof.
  intros -> H. destruct pre; simpl in *; congruence.
Qed.

Lemma no_link_or_bodyless_are_skipped (w : World) (items : list Tag) :
  Forall (fun it => page_status_of w it = NoLink \/ page_status_of w it = Bodyless)
    items ->
  forallb (fun it => skipped (page_status_of w it)) items = true.
Proof.
  induction 1 as [| it items Hit _ IH]; [reflexivity |].
  simpl. rewrite IH. destruct Hit as [-> | ->]; reflexivity.
Qed.

(** C1, as the code has it.  Take a feed whose items are
    [pre ++ item :: post], where every item of [pre] either has no link
    element or has a page that was fetched and has no article element, and
    the page behind [item] was fetched and has an article element with text
    [b], empty or not.  With more fuel than [pre] is long, get_headlines
    returns the title and the description of the first item of the feed
    together with [b], the body of item number [length pre + 1]. *)
Theorem get_headlines_skips_then_returns_first_found_body
    (w : World) (fuel : nat) (articles pre post : list Tag) (item first : Tag)
    (t d b : string) :
  feed_items w = Some articles ->
  articles = pre ++ item :: post ->
  Forall (fun it => page_status_of w it = NoLink \/ page_status_of w it = Bodyless)
    pre ->
  page_status_of w item = HasBody b ->
  hd_error articles = Some first ->
  title_of first = Some t ->
  description_of first = Some d ->
  length pre < fuel ->
  result (get_headlines w fuel BBCNews_init) = Return (t, d, b).
Proof.
  intros Hfeed Hsplit Hpre Hitem Hfirst Ht Hd Hfuel.
  assert (Hns : skipped (page_status_of w item) = false) by (rewrite Hitem; reflexivity).
  rewrite (get_headlines_stops_at w fuel articles pre post item Hfeed Hsplit
             (no_link_or_bodyless_are_skipped w pre Hpre) Hns Hfuel).
  rewrite (hd_error_hd _ _ _ _ _ Hsplit Hfirst), Hitem, Ht, Hd.
  reflexivity.
Qed.

Lemma get_headlines_skips_then_returns_first_found_body_witness :
  feed_items Demo.second_has_body = Some [Demo.item_a; Demo.item_b; Demo.item_c] /\
  page_status_of Demo.second_has_body Demo.item_a = Bodyless /\
  page_status_of Demo.second_has_body Demo.item_b = HasBody "Body text B" /\
  result (get_headlines Demo.second_has_body 2 BBCNews_init) =
    Return ("Headline A", "Desc A", "Body text B").
Proof.
  split; [reflexivity |]. split; [reflexivity |]. split; [reflexivity |].
  apply (get_headlines_skips_then_returns_first_found_body Demo.second_has_body 2
           [Demo.item_a; Demo.item_b; Demo.item_c] [Demo.item_a] [Demo.item_c]
           Demo.item_b Demo.item_a).
  - reflexivity.
  - reflexivity.
  - constructor; [right; reflexivity | constructor].
  - reflexivity.
  - reflexivity.
  - reflexivity.
  - reflexivity.
  - simpl. lia.
Defined.

(** C1 as stated fails.  In a feed of two items where the page of item 1
    cannot be reached and the page of item 2 has the body "Body text B",
    item 1 yields no extractable body and item 2 yields a non-empty one, yet
    get_headlines does not return item 1's title with item 2's body for any
    fuel: the request error is not an AttributeError, so it is not caught,
    and get_headlines raises it without ever requesting item 2. *)
Lemma unreachable_earlier_page_is_not_skipped :
  feed_items Edge.first_unreachable = Some [Demo.item_a; Demo.item_b] /\
  page_status_of Edge.first_unreachable Demo.item_a = Unreachable "ConnectTimeout" /\
  page_status_of Edge.first_unreachable Demo.item_b = HasBody "Body text B" /\
  get_headlines Edge.first_unreachable 2 BBCNews_init =
    ([EvRequest Demo.feed_url 10; EvRequest "http://bbc/a" 10],
     Raise (RequestException "ConnectTimeout")) /\
  ~ (exists fuel,
        result (get_headlines Edge.first_unreachable fuel BBCNews_init)
        = Return ("Headline A", "Desc A", "Body text B")).
Proof.
  split; [reflexivity |]. split; [reflexivity |]. split; [reflexivity |].
  split; [reflexivity |].
  intros [fuel H].
  destruct fuel as [| fuel]; vm_compute in H; discriminate H.
Qed.

(** An article element with no text counts as found: its empty text is the
    body, and the later item with a real body is never requested. *)
Example empty_article_wins :
  page_status_of Edge.first_has_empty_article Demo.item_a = HasBody "" /\
  get_headlines Edge.first_has_empty_article 2 BBCNews_init =
    ([EvRequest Demo.feed_url 10; EvRequest "http://bbc/a" 10],
     Return ("Headline A", "Desc A", "")).
Proof. split; reflexivity. Qed.

(** C2, as the code has it.  When the feed can be fetched and the page
    behind every one of its items has no article element, get_headlines with
    more fuel than the feed has items stops by raising IndexError: the loop
    indexes one past the end of the item list and nothing catches that. *)
Theorem get_headlines_exhausted_feed_raises_IndexError
    (w : World) (fuel : nat) (articles : list Tag) :
  feed_items w = Some articles ->
  Forall (fun it => page_status_of w it = Bodyless) articles ->
  length articles < fuel ->
  result (get_headlines w fuel BBCNews_init) = Raise IndexError.
Proof.
  intros Hfeed Hall Hfuel.
  rewrite (get_headlines_exhausts w fuel articles Hfeed
             (bodyless_are_skipped w articles Hall) Hfuel).
  reflexivity.
Qed.

Lemma get_headlines_exhausted_feed_raises_IndexError_witness :
  feed_items Demo.no_bodies = Some [Demo.item_a; Demo.item_b] /\
  result (get_headlines Demo.no_bodies 3 BBCNews_init) = Raise IndexError.
Proof.
  split; [reflexivity |].
  apply (get_headlines_exhausted_feed_raises_IndexError Demo.no_bodies 3
           [Demo.item_a; Demo.item_b]).
  - reflexivity.
  - repeat constructor.
  - simpl. lia.
Defined.

(** C2 as stated fails: on a feed of two items whose pages both lack the
    article element, no amount of fuel makes get_headlines raise
    NoArticleFoundError; with enough fuel it raises IndexError. *)
Lemma get_headlines_never_raises_NoArticleFoundError :
  feed_items Demo.no_bodies = Some [Demo.item_a; Demo.item_b] /\
  Forall (fun it => page_status_of Demo.no_bodies it = Bodyless)
    [Demo.item_a; Demo.item_b] /\
  result (get_headlines Demo.no_bodies 3 BBCNews_init) = Raise IndexError /\
  ~ (exists fuel,
        result (get_headlines Demo.no_bodies fuel BBCNews_init)
        = Raise NoArticleFoundError).
Proof.
  split; [reflexivity |]. split; [repeat constructor |]. split; [reflexivity |].
  intros [fuel H].
  destruct fuel as [| [| [| fuel]]]; vm_compute in H; discriminate H.
Qed.

Lemma link_text_status (w : World) (item : Tag) (u : string) :
  link_text item = Some u ->
  page_status_of w item =
  match requests_get w u 10 with
  | inl why => Unreachable why
  | inr text =>
      match find "article" (bsoup w text "xml") with
      | None => Bodyless
      | Some art => HasBody (get_text art)
      end
  end.
Proof. intros H. unfold page_status_of. rewrite H. reflexivity. Qed.

(** C9, as the code has it.  Let the loop stand at [item], the reference
    after the skipped references [pre].  The pass over [item] ends with the
    counter moved on to the next reference exactly when extraction raised
    AttributeError, which happens in two cases: the item has no link element
    (then no page is requested), or the page fetched from its link has no
    article element.  If instead the request to the item's link [u] raises
    (a network error, a timeout), get_headlines raises that same exception
    and its log ends with the request to [u]: no later reference is
    tried. *)
Theorem skip_iff_no_link_or_no_article_element
    (w : World) (fuel : nat) (articles pre post : list Tag) (item : Tag) :
  feed_items w = Some articles ->
  articles = pre ++ item :: post ->
  Forall (fun it => page_status_of w it = NoLink \/ page_status_of w it = Bodyless)
    pre ->
  length pre < fuel ->
  let l := {| found_article := false; counter := length pre; body := None |} in
  ((exists tr l',
       try_next_article w BBCNews_init articles l = (tr, Return l') /\
       found_article l' = false /\ counter l' = length pre + 1)
   <-> (link_text item = None \/
        exists u text,
          link_text item = Some u /\
          requests_get w u 10 = inr text /\
          find "article" (bsoup w text "xml") = None)) /\
  (link_text item = None ->
   trace (try_next_article w BBCNews_init articles l) =
   [EvPrint "Article not found, trying next article."]) /\
  (forall u why,
      link_text item = Some u ->
      requests_get w u 10 = inl why ->
      get_headlines w fuel BBCNews_init =
      (feed_request :: skip_trace pre ++ [EvRequest u 10],
       Raise (RequestException why))).
Proof.
  intros Hfeed Hsplit Hpre Hfuel l.
  assert (Hnth : nth_error articles (counter l) = Some item).
  { subst articles l. simpl.
    rewrite nth_error_app2, Nat.sub_diag by lia. reflexivity. }
  split; [| split].
  - rewrite (try_next_article_status w BBCNews_init articles l item Hnth).
    unfold page_status_of.
    destruct (link_text item) as [u |].
    + destruct (requests_get w u 10) as [why | text] eqn:Hget.
      * split.
        -- intros (tr & l' & Heq & _). discriminate Heq.
        -- intros [Hno | (u' & text & [= <-] & Hget' & _)]; [discriminate Hno |].
           rewrite Hget in Hget'. discriminate Hget'.
      * destruct (find "article" (bsoup w text "xml")) as [art |] eqn:Hfind.
        -- split.
           ++ intros (tr & l' & Heq & Hf & _).
              injection Heq as _ Hl. subst l'. discriminate Hf.
           ++ intros [Hno | (u' & text' & [= <-] & Hget' & Hnone)];
                [discriminate Hno |].
              rewrite Hget in Hget'. injection Hget' as <-.
              rewrite Hfind in Hnone. discriminate Hnone.
        -- split.
           ++ intros _. right. exists u, text. repeat split; assumption.
           ++ intros _. eexists. eexists.
              split; [reflexivity |]. split; reflexivity.
    + split.
      * intros _. left. reflexivity.
      * intros _. eexists. eexists. split; [reflexivity |]. split; reflexivity.
  - intros Hno.
    rewrite (try_next_article_status w BBCNews_init articles l item Hnth).
    unfold page_status_of, link_requests. rewrite Hno. reflexivity.
  - intros u why Hlink Hget.
    pose proof (link_text_status w item u Hlink) as Hstatus.
    rewrite Hget in Hstatus.
    assert (Hns : skipped (page_status_of w item) = false)
      by (rewrite Hstatus; reflexivity).
    rewrite (get_headlines_stops_at w fuel articles pre post item Hfeed Hsplit
               (no_link_or_bodyless_are_skipped w pre Hpre) Hns Hfuel).
    rewrite Hstatus. unfold link_requests. rewrite Hlink. reflexivity.
Qed.

Lemma skip_iff_no_link_or_no_article_element_witness :
  link_text Demo.item_b = Some "http://bbc/b" /\
  requests_get Demo.second_times_out "http://bbc/b" 10 = inl "ReadTimeout" /\
  get_headlines Demo.second_times_out 2 BBCNews_init =
  ([EvRequest Demo.feed_url 10;
    EvRequest "http://bbc/a" 10;
    EvPrint "Article not found, trying next article.";
    EvRequest "http://bbc/b" 10],
   Raise (RequestException "ReadTimeout")).
Proof.
  split; [reflexivity |]. split; [reflexivity |].
  refine (proj2 (proj2 (skip_iff_no_link_or_no_article_element
                   Demo.second_times_out 2
                   [Demo.item_a; Demo.item_b; Demo.item_c] [Demo.item_a]
                   [Demo.item_c] Demo.item_b _ _ _ _))
            "http://bbc/b" "ReadTimeout" _ _).
  - reflexivity.
  - reflexivity.
  - constructor; [right; reflexivity | constructor].
  - simpl. lia.
  - reflexivity.
  - reflexivity.
Defined.

(** C9 as stated fails.  The first item of this feed has no link element,
    so it has no page at all, let alone one that lacks the article element:
    nothing is requested for it.  The pass over it still ends in the except
    branch, with the line printed and the counter moved on to the next
    reference. *)
Lemma item_without_link_is_skipped_without_page :
  feed_items Edge.first_has_no_link
    = Some [Edge.linkless_item; Demo.item_b; Demo.item_c] /\
  link_text Edge.linkless_item = None /\
  page_status_of Edge.first_has_no_link Edge.linkless_item <> Bodyless /\
  try_next_article Edge.first_has_no_link BBCNews_init
    [Edge.linkless_item; Demo.item_b; Demo.item_c]
    {| found_article := false; counter := 0; body := None |} =
  ([EvPrint "Article not found, trying next article."],
   Return {| found_article := false; counter := 1; body := None |}) /\
  requested_urls (trace (get_headlines Edge.first_has_no_link 2 BBCNews_init)) =
    [Demo.feed_url; "http://bbc/b"].
Proof.
  split; [reflexivity |]. split; [reflexivity |].
  split; [vm_compute; discriminate |].
  split; reflexivity.
Qed.

(** C8.  Whatever the world answers and whatever the fuel, every request in
    the log of get_headlines, and so every request in the log of main,
    carries the timeout 10; the first thing get_headlines does is the
    request for the feed, with that timeout. *)
Theorem every_request_carries_timeout_10 (w : World) (fuel : nat) (self : News) :
  Forall (fun t => t = 10%Z) (request_timeouts (trace (get_headlines w fuel self))) /\
  hd_error (trace (get_headlines w fuel self)) = Some (EvRequest (url self) 10) /\
  Forall (fun t => t = 10%Z) (request_timeouts (trace (main w fuel))).
Proof.
  split; [| split].
  - apply scraper_projections, get_headlines_scraper.
  - unfold get_headlines, _get_soup, requests_dot_get.
    destruct (requests_get w (url self) 10) as [why | text]; [reflexivity |].
    rewrite bind_trace. reflexivity.
  - rewrite main_trace, request_timeouts_app.
    apply Forall_app. split.
    + apply scraper_projections, get_headlines_scraper.
    + destruct (result (get_headlines w fuel BBCNews_init)) as [[[t d] b] | e |];
        try constructor.
      rewrite summarise_log_requests. constructor.
Qed.

(** ** The chat object (AIChat) *)

Lemma inputs_fold_add_input (ds : list message) :
  forall chat, inputs (fold_left add_input ds chat) = inputs chat ++ ds.
Proof.
  induction ds as [| d ds IH]; intros chat; simpl.
  - symmetry. apply app_nil_r.
  - rewrite IH. simpl. rewrite <- app_assoc. reflexivity.
Qed.

(** C10.  Start from a fresh AIChat and call add_input once for each
    message of [ds], in order.  The conversation is then the system
    instruction followed by [ds]: its length is [1 + length ds] and its head
    is the system instruction.  One more add_input puts its message at the
    end and keeps what was there, and a run_ai that returns hands back the
    object it was given. *)
Theorem add_input_appends_and_run_ai_preserves (c : OpenAI) (ds : list message) :
  let chat := fold_left add_input ds (AIChat_init c) in
  inputs chat = system_message :: ds /\
  length (inputs chat) = 1 + length ds /\
  hd_error (inputs chat) = Some system_message /\
  (forall d, inputs (add_input chat d) = inputs chat ++ [d]) /\
  (forall w tr response chat',
      run_ai w chat = (tr, Return (response, chat')) -> chat' = chat).
Proof.
  intros chat.
  assert (H : inputs chat = system_message :: ds).
  { subst chat. rewrite inputs_fold_add_input. reflexivity. }
  split; [exact H |].
  split; [rewrite H; reflexivity |].
  split; [rewrite H; reflexivity |].
  split; [intros d; reflexivity |].
  intros w tr response chat'. unfold run_ai, chat_create.
  destruct (chat_completions_create w _) as [why | r]; [discriminate |].
  intros [= _ _ <-]. reflexivity.
Qed.

Lemma add_input_appends_and_run_ai_preserves_witness :
  let c := mkOpenAI "sk-demo" in
  let hello := mkMessage "user" "Hello!" in
  let again := mkMessage "user" "" in
  let chat := fold_left add_input [hello; again] (AIChat_init c) in
  inputs chat = [system_message; hello; again] /\
  run_ai Demo.all_blank chat =
    ([EvChatCreate (mkChatRequest "gpt-3.5-turbo" [system_message; hello; again] 0.5 1)],
     Return (mkChatCompletion ["Summary of the day."], chat)) /\
  chat = chat.
Proof.
  intros c hello again chat.
  destruct (add_input_appends_and_run_ai_preserves c [hello; again])
    as (Hinputs & _ & _ & _ & Hrun).
  split; [exact Hinputs |]. split; [reflexivity |].
  exact (Hrun Demo.all_blank _ _ chat eq_refl).
Defined.

(** ** main *)

(** C3.  Whenever the resolver returns a title, a description and a body,
    empty or not, main calls the completion endpoint once, and the
    conversation of that call is the system instruction followed by three
    user turns: the title, the description and the body in that order, each
    unchanged behind its fixed label. *)
Theorem conversation_is_system_title_description_body
    (w : World) (fuel : nat) (t d b : string) :
  result (get_headlines w fuel BBCNews_init) = Return (t, d, b) ->
  map req_messages (chat_requests (trace (main w fuel))) =
  [[mkMessage "system" system_content;
    mkMessage "user" ("Article Title: " ++ t);
    mkMessage "user" ("Article Description: " ++ d);
    mkMessage "user" ("Article Body: " ++ b)]].
Proof.
  intros H. rewrite main_chat, H. reflexivity.
Qed.

Lemma conversation_is_system_title_description_body_witness :
  result (get_headlines Demo.all_blank 1 BBCNews_init) = Return ("", "", "") /\
  map req_messages (chat_requests (trace (main Demo.all_blank 1))) =
  [[mkMessage "system" system_content;
    mkMessage "user" "Article Title: ";
    mkMessage "user" "Article Description: ";
    mkMessage "user" "Article Body: "]].
Proof.
  split; [reflexivity |].
  apply (conversation_is_system_title_description_body Demo.all_blank 1 "" "" "").
  reflexivity.
Defined.

(** C7.  Whenever the resolver returns, main sends exactly one completion
    request; its temperature is 0.5 and it asks for one completion.  If the
    endpoint answers with a first choice [c], the text handed to the speech
    endpoint is [c]. *)
Theorem completion_request_is_fixed_and_first_choice_is_spoken
    (w : World) (fuel : nat) (t d b : string) :
  result (get_headlines w fuel BBCNews_init) = Return (t, d, b) ->
  exists req,
    chat_requests (trace (main w fuel)) = [req] /\
    req_temperature req = 0.5%Q /\
    req_n req = 1%Z /\
    (forall c cs,
        chat_completions_create w req = inr (mkChatCompletion (c :: cs)) ->
        speech_requests (trace (main w fuel)) =
        [{| sp_model := "tts-1"; sp_voice := "alloy"; sp_input := c |}]).
Proof.
  intros H. exists (chat_request t d b).
  rewrite main_chat, main_speech, H.
  split; [reflexivity |]. split; [reflexivity |]. split; [reflexivity |].
  intros c cs Hchat. unfold summary_of. rewrite Hchat. reflexivity.
Qed.

Lemma completion_request_is_fixed_and_first_choice_is_spoken_witness :
  result (get_headlines Demo.second_has_body 2 BBCNews_init) =
    Return ("Headline A", "Desc A", "Body text B") /\
  exists req,
    chat_requests (trace (main Demo.second_has_body 2)) = [req] /\
    req_temperature req = 0.5%Q /\
    req_n req = 1%Z /\
    (forall c cs,
        chat_completions_create Demo.second_has_body req
        = inr (mkChatCompletion (c :: cs)) ->
        speech_requests (trace (main Demo.second_has_body 2)) =
        [{| sp_model := "tts-1"; sp_voice := "alloy"; sp_input := c |}]).
Proof.
  split; [reflexivity |].
  apply (completion_request_is_fixed_and_first_choice_is_spoken
           Demo.second_has_body 2 "Headline A" "Desc A" "Body text B").
  reflexivity.
Defined.

(** C4, as the code has it.  When the feed can be fetched and the page
    behind every one of its items has no article element, main with more
    fuel than the feed has items ends by raising IndexError, and its log
    holds no completion request, no speech request, no file write and no
    playback. *)
Theorem main_aborts_before_summarizer_and_speech
    (w : World) (fuel : nat) (articles : list Tag) :
  feed_items w = Some articles ->
  Forall (fun it => page_status_of w it = Bodyless) articles ->
  length articles < fuel ->
  result (main w fuel) = Raise IndexError /\
  chat_requests (trace (main w fuel)) = [] /\
  speech_requests (trace (main w fuel)) = [] /\
  written_paths (trace (main w fuel)) = [] /\
  played_sounds (trace (main w fuel)) = [].
Proof.
  intros Hfeed Hall Hfuel.
  assert (H : result (get_headlines w fuel BBCNews_init) = Raise IndexError).
  { rewrite (get_headlines_exhausts w fuel articles Hfeed
               (bodyless_are_skipped w articles Hall) Hfuel).
    reflexivity. }
  rewrite main_result, main_chat, main_speech, main_written, main_played, H.
  repeat split; reflexivity.
Qed.

Lemma main_aborts_before_summarizer_and_speech_witness :
  feed_items Demo.no_bodies = Some [Demo.item_a; Demo.item_b] /\
  result (main Demo.no_bodies 3) = Raise IndexError /\
  chat_requests (trace (main Demo.no_bodies 3)) = [] /\
  speech_requests (trace (main Demo.no_bodies 3)) = [] /\
  written_paths (trace (main Demo.no_bodies 3)) = [] /\
  played_sounds (trace (main Demo.no_bodies 3)) = [].
Proof.
  split; [reflexivity |].
  apply (main_aborts_before_summarizer_and_speech Demo.no_bodies 3
           [Demo.item_a; Demo.item_b]).
  - reflexivity.
  - repeat constructor.
  - simpl. lia.
Defined.

(** C4 as stated fails: on a feed of two items whose pages both lack the
    article element, main ends with IndexError, and for no fuel with
    NoArticleFoundError. *)
Lemma main_never_raises_NoArticleFoundError :
  Forall (fun it => page_status_of Demo.no_bodies it = Bodyless)
    [Demo.item_a; Demo.item_b] /\
  feed_items Demo.no_bodies = Some [Demo.item_a; Demo.item_b] /\
  result (main Demo.no_bodies 3) = Raise IndexError /\
  ~ (exists fuel, result (main Demo.no_bodies fuel) = Raise NoArticleFoundError).
Proof.
  split; [repeat constructor |]. split; [reflexivity |]. split; [reflexivity |].
  intros [fuel H].
  destruct fuel as [| [| [| fuel]]]; vm_compute in H; discriminate H.
Qed.

(** C5.  Let [S] be the text main hands to the speech endpoint.  If
    create_audio on [S] returns (the endpoint answered and the file was
    written), the log of main holds exactly one playback; if create_audio
    raises, it holds none. *)
Theorem playback_once_after_synthesis_none_after_failure
    (w : World) (fuel : nat) (S : string) :
  map sp_input (speech_requests (trace (main w fuel))) = [S] ->
  let tts := TTS_init w (mkOpenAI (OPENAI_API_KEY w)) "news" in
  (result (create_audio w tts S) = Return tt ->
   length (played_sounds (trace (main w fuel))) = 1) /\
  (forall e, result (create_audio w tts S) = Raise e ->
             played_sounds (trace (main w fuel)) = []).
Proof.
  rewrite main_speech, main_played.
  destruct (result (get_headlines w fuel BBCNews_init)) as [[[t d] b] | e |];
    try discriminate.
  destruct (summary_of w (chat_request t d b)) as [s |]; [| discriminate].
  intros [= ->] tts. rewrite speak_log_played. fold tts.
  split.
  - intros ->. reflexivity.
  - intros e ->. reflexivity.
Qed.

Lemma playback_once_after_synthesis_none_after_failure_witness :
  (map sp_input (speech_requests (trace (main Demo.second_has_body 2)))
     = ["Summary of the day."] /\
   length (played_sounds (trace (main Demo.second_has_body 2))) = 1) /\
  (map sp_input (speech_requests (trace (main Demo.speech_down 1)))
     = ["Summary of the day."] /\
   played_sounds (trace (main Demo.speech_down 1)) = []).
Proof.
  split; (split; [reflexivity |]).
  - apply (proj1 (playback_once_after_synthesis_none_after_failure
                    Demo.second_has_body 2 "Summary of the day." eq_refl)).
    reflexivity.
  - apply (proj2 (playback_once_after_synthesis_none_after_failure
                    Demo.speech_down 1 "Summary of the day." eq_refl)
             (OpenAIError "RateLimitError")).
    reflexivity.
Defined.

(** ** The audio file (TTS) *)

(** X13.  Whenever main gets as far as playing, it has written to news.mp3
    next to the script, once, and it plays the bare name news.mp3. *)
Lemma main_writes_next_to_script_plays_bare_name (w : World) (fuel : nat) :
  played_sounds (trace (main w fuel)) <> [] ->
  written_paths (trace (main w fuel)) = [joinpath (parent (dunder_file w)) "news.mp3"] /\
  played_sounds (trace (main w fuel)) = ["news.mp3"].
Proof.
  rewrite main_written, main_played.
  destruct (result (get_headlines w fuel BBCNews_init)) as [[[t d] b] | e |];
    try congruence.
  destruct (summary_of w (chat_request t d b)) as [s |]; [| congruence].
  rewrite speak_log_played, speak_log_written, create_audio_run.
  destruct (audio_speech_create w (speech_request s)) as [why | audio];
    [simpl; congruence |].
  simpl. destruct (stream_to_file w _ audio); [congruence |].
  intros _. split; [reflexivity |].
  unfold path_name. simpl. rewrite last_last. reflexivity.
Qed.

(** When the process runs in the directory of the script, the bare name
    resolves to the file that was written. *)
Lemma bare_name_resolves_to_written_path_in_script_dir (w : World) :
  cwd w = parent (dunder_file w) ->
  absolute (dunder_file w) = true ->
  resolve w (Path_of_name "news.mp3") =
  resolve w (joinpath (parent (dunder_file w)) "news.mp3").
Proof.
  intros Hcwd Habs. unfold resolve, Path_of_name, joinpath, parent in *.
  simpl. rewrite Habs, Hcwd. simpl. rewrite Habs. reflexivity.
Qed.

(** C6, at a run started from the directory above the script: the audio is
    written to /home/user/News-Reader/news.mp3, playsound is given the bare
    name news.mp3, and in the working directory /home/user that names
    /home/user/news.mp3, another file. *)
Theorem play_audio_resolves_name_against_cwd :
  let tr := trace (main Demo.second_has_body 2) in
  result (main Demo.second_has_body 2) = Return tt /\
  written_paths tr = [mkPath true ["home"; "user"; "News-Reader"; "news.mp3"]] /\
  played_sounds tr = ["news.mp3"] /\
  map (resolve Demo.second_has_body) (written_paths tr) =
    [mkPath true ["home"; "user"; "News-Reader"; "news.mp3"]] /\
  map (fun s => resolve Demo.second_has_body (Path_of_name s)) (played_sounds tr) =
    [mkPath true ["home"; "user"; "news.mp3"]] /\
  map (fun s => resolve Demo.second_has_body (Path_of_name s)) (played_sounds tr) <>
    map (resolve Demo.second_has_body) (written_paths tr).
Proof.
  vm_compute. repeat split; try reflexivity. discriminate.
Qed.

Example started_in_script_dir_plays_written_file :
  let tr := trace (main Demo.started_in_script_dir 2) in
  map (fun s => resolve Demo.started_in_script_dir (Path_of_name s)) (played_sounds tr) =
  map (resolve Demo.started_in_script_dir) (written_paths tr).
Proof. vm_compute. reflexivity. Qed.

(** ** Further properties of the resolver *)

(** Once there is fuel for every pass the loop can make, more fuel changes
    nothing. *)
Lemma while_not_found_fuel_stable w self articles fuel :
  forall l fuel',
    length articles - counter l < fuel ->
    fuel <= fuel' ->
    while_not_found w fuel' self articles l = while_not_found w fuel self articles l.
Proof.
  induction fuel as [| fuel IH]; intros l fuel' Hfuel Hle; [lia |].
  destruct fuel' as [| fuel']; [lia |].
  destruct (found_article l) eqn:Hf.
  - rewrite !while_not_found_done by assumption. reflexivity.
  - rewrite !while_not_found_step by assumption.
    destruct (nth_error articles (counter l)) as [item |] eqn:Hnth.
    + assert (Hlt : counter l < length articles)
        by (apply nth_error_Some; rewrite Hnth; discriminate).
      rewrite (try_next_article_status w self _ _ _ Hnth).
      destruct (page_status_of w item); rewrite ?bind_return, ?bind_raise;
        try reflexivity.
      * rewrite (IH _ fuel') by (simpl; lia). reflexivity.
      * rewrite (IH _ fuel') by (simpl; lia). reflexivity.
      * rewrite !while_not_found_done by reflexivity. reflexivity.
    + rewrite (try_next_article_exhausted w self _ _ Hnth). reflexivity.
Qed.

(** X1.  On a feed that can be fetched, get_headlines with more fuel than
    the feed has items always comes to an end, by a return or by an
    exception, and its log and outcome are the same for every such fuel. *)
Theorem get_headlines_ends_and_ignores_spare_fuel
    (w : World) (fuel fuel' : nat) (articles : list Tag) :
  feed_items w = Some articles ->
  length articles < fuel ->
  length articles < fuel' ->
  result (get_headlines w fuel BBCNews_init) <> OutOfFuel /\
  get_headlines w fuel BBCNews_init = get_headlines w fuel' BBCNews_init.
Proof.
  intros Hfeed Hfuel Hfuel'. split.
  - apply (get_headlines_total w fuel articles Hfeed Hfuel).
  - rewrite !(get_headlines_from_feed w _ _ Hfeed).
    rewrite (while_not_found_fuel_stable w BBCNews_init articles
               (S (length articles)) start fuel) by (simpl; lia).
    rewrite (while_not_found_fuel_stable w BBCNews_init articles
               (S (length articles)) start fuel') by (simpl; lia).
    reflexivity.
Qed.

Lemma get_headlines_ends_and_ignores_spare_fuel_witness :
  feed_items Demo.second_has_body = Some [Demo.item_a; Demo.item_b; Demo.item_c] /\
  result (get_headlines Demo.second_has_body 4 BBCNews_init) <> OutOfFuel /\
  get_headlines Demo.second_has_body 4 BBCNews_init =
  get_headlines Demo.second_has_body 9 BBCNews_init.
Proof.
  split; [reflexivity |].
  apply (get_headlines_ends_and_ignores_spare_fuel Demo.second_has_body 4 9
           [Demo.item_a; Demo.item_b; Demo.item_c]).
  - reflexivity.
  - simpl. lia.
  - simpl. lia.
Defined.

(** X2.  A feed that is fetched but holds no item makes main stop with
    IndexError right after the feed request: no page is requested and
    nothing is printed. *)
Theorem main_on_empty_feed (w : World) (fuel : nat) :
  feed_items w = Some [] ->
  0 < fuel ->
  main w fuel = ([EvRequest (url BBCNews_init) 10], Raise IndexError).
Proof.
  intros Hfeed Hfuel.
  pose proof (get_headlines_exhausts w fuel [] Hfeed eq_refl Hfuel) as Hgh.
  rewrite (main_without_headlines w fuel IndexError); rewrite Hgh; reflexivity.
Qed.

Lemma main_on_empty_feed_witness :
  feed_items Edge.empty_feed = Some [] /\
  main Edge.empty_feed 1 = ([EvRequest Demo.feed_url 10], Raise IndexError).
Proof.
  split; [reflexivity |].
  apply (main_on_empty_feed Edge.empty_feed 1).
  - reflexivity.
  - lia.
Defined.

(** X3.  When the request for the feed raises, main raises the same
    exception at once, whatever the fuel: the feed request is the only
    event. *)
Theorem main_on_unreachable_feed (w : World) (fuel : nat) (why : string) :
  requests_get w (url BBCNews_init) 10 = inl why ->
  main w fuel = ([EvRequest (url BBCNews_init) 10], Raise (RequestException why)).
Proof.
  intros H.
  pose proof (get_headlines_feed_unreachable w fuel why H) as Hgh.
  rewrite (main_without_headlines w fuel (RequestException why));
    rewrite Hgh; reflexivity.
Qed.

Lemma main_on_unreachable_feed_witness :
  main Edge.feed_down 0 =
  ([EvRequest Demo.feed_url 10], Raise (RequestException "ConnectionError")).
Proof.
  apply (main_on_unreachable_feed Edge.feed_down 0 "ConnectionError").
  reflexivity.
Defined.

(** X4.  The title and the description are read from the first item after
    the loop, outside the try.  If the first item lacks either element,
    get_headlines raises AttributeError although a body was found, and main
    ends with that error before any completion request. *)
Theorem missing_title_or_description_aborts_after_body_found
    (w : World) (fuel : nat) (articles pre post : list Tag) (item first : Tag)
    (b : string) :
  feed_items w = Some articles ->
  articles = pre ++ item :: post ->
  forallb (fun it => skipped (page_status_of w it)) pre = true ->
  page_status_of w item = HasBody b ->
  hd_error articles = Some first ->
  title_of first = None \/ description_of first = None ->
  length pre < fuel ->
  result (get_headlines w fuel BBCNews_init) = Raise AttributeError /\
  result (main w fuel) = Raise AttributeError /\
  chat_requests (trace (main w fuel)) = [].
Proof.
  intros Hfeed Hsplit Hpre Hitem Hfirst Hmiss Hfuel.
  assert (Hns : skipped (page_status_of w item) = false) by (rewrite Hitem; reflexivity).
  assert (H : result (get_headlines w fuel BBCNews_init) = Raise AttributeError).
  { rewrite (get_headlines_stops_at w fuel articles pre post item Hfeed Hsplit
               Hpre Hns Hfuel).
    rewrite (hd_error_hd _ _ _ _ _ Hsplit Hfirst), Hitem. simpl.
    destruct Hmiss as [-> | ->]; [reflexivity |].
    destruct (title_of first); reflexivity. }
  rewrite main_result, main_chat, H. repeat split; reflexivity.
Qed.

Lemma missing_title_or_description_aborts_after_body_found_witness :
  page_status_of Edge.first_has_no_title Edge.untitled_item = HasBody "Body text B" /\
  title_of Edge.untitled_item = None /\
  result (get_headlines Edge.first_has_no_title 1 BBCNews_init) = Raise AttributeError /\
  result (main Edge.first_has_no_title 1) = Raise AttributeError /\
  chat_requests (trace (main Edge.first_has_no_title 1)) = [].
Proof.
  split; [reflexivity |]. split; [reflexivity |].
  apply (missing_title_or_description_aborts_after_body_found
           Edge.first_has_no_title 1 [Edge.untitled_item; Demo.item_c] []
           [Demo.item_c] Edge.untitled_item Edge.untitled_item "Body text B").
  - reflexivity.
  - reflexivity.
  - reflexivity.
  - reflexivity.
  - reflexivity.
  - left. reflexivity.
  - simpl. lia.
Defined.

Lemma requested_urls_app (a b : list event) :
  requested_urls (a ++ b) = requested_urls a ++ requested_urls b.
Proof. apply flat_map_app. Qed.

Lemma printed_lines_app (a b : list event) :
  printed_lines (a ++ b) = printed_lines a ++ printed_lines b.
Proof. apply flat_map_app. Qed.

Lemma requested_urls_link_requests (item : Tag) :
  requested_urls (link_requests item) = item_links [item].
Proof.
  unfold link_requests, item_links. simpl.
  destruct (link_text item); reflexivity.
Qed.

Lemma printed_lines_link_requests (item : Tag) :
  printed_lines (link_requests item) = [].
Proof. unfold link_requests. destruct (link_text item); reflexivity. Qed.

Lemma requested_urls_skip_trace (pre : list Tag) :
  requested_urls (skip_trace pre) = item_links pre.
Proof.
  induction pre as [| it pre IH]; [reflexivity |].
  change (skip_trace (it :: pre))
    with ((link_requests it ++ [EvPrint skip_line]) ++ skip_trace pre).
  rewrite !requested_urls_app, IH.
  unfold link_requests, item_links. simpl.
  destruct (link_text it); reflexivity.
Qed.

Lemma printed_lines_skip_trace (pre : list Tag) :
  printed_lines (skip_trace pre) = repeat skip_line (length pre).
Proof.
  induction pre as [| it pre IH]; [reflexivity |].
  change (skip_trace (it :: pre))
    with ((link_requests it ++ [EvPrint skip_line]) ++ skip_trace pre).
  rewrite !printed_lines_app, printed_lines_link_requests, IH. reflexivity.
Qed.

(** X5.  get_headlines requests the feed, then the links of the references
    up to and including the first one that is not skipped, in feed order,
    and nothing else: no reference after that one is ever requested. *)
Theorem no_request_after_the_first_unskipped_reference
    (w : World) (fuel : nat) (articles pre post : list Tag) (item : Tag) :
  feed_items w = Some articles ->
  articles = pre ++ item :: post ->
  forallb (fun it => skipped (page_status_of w it)) pre = true ->
  skipped (page_status_of w item) = false ->
  length pre < fuel ->
  requested_urls (trace (get_headlines w fuel BBCNews_init)) =
  url BBCNews_init :: item_links (pre ++ [item]).
Proof.
  intros Hfeed Hsplit Hpre Hitem Hfuel.
  rewrite (get_headlines_stops_at w fuel articles pre post item Hfeed Hsplit
             Hpre Hitem Hfuel).
  unfold trace, fst, feed_request.
  change (requested_urls (EvRequest (url BBCNews_init) 10
                            :: skip_trace pre ++ link_requests item))
    with (url BBCNews_init :: requested_urls (skip_trace pre ++ link_requests item)).
  rewrite requested_urls_app, requested_urls_skip_trace, requested_urls_link_requests.
  unfold item_links. rewrite flat_map_app. reflexivity.
Qed.

Lemma no_request_after_the_first_unskipped_reference_witness :
  requested_urls (trace (get_headlines Demo.second_has_body 2 BBCNews_init)) =
  [Demo.feed_url; "http://bbc/a"; "http://bbc/b"].
Proof.
  apply (no_request_after_the_first_unskipped_reference Demo.second_has_body 2
           [Demo.item_a; Demo.item_b; Demo.item_c] [Demo.item_a] [Demo.item_c]
           Demo.item_b).
  - reflexivity.
  - reflexivity.
  - reflexivity.
  - reflexivity.
  - simpl. lia.
Defined.

Lemma no_link_status (w : World) (item : Tag) :
  link_text item = None -> page_status_of w item = NoLink.
Proof. intros H. unfold page_status_of. rewrite H. reflexivity. Qed.

Lemma skip_trace_no_links (w : World) (pre : list Tag) :
  Forall (fun it => link_text it = None) pre ->
  skip_trace pre = map (fun _ => EvPrint skip_line) pre /\
  forallb (fun it => skipped (page_status_of w it)) pre = true.
Proof.
  induction 1 as [| it pre Hit _ [IHt IHs]]; [split; reflexivity |].
  split.
  - change (skip_trace (it :: pre))
      with ((link_requests it ++ [EvPrint skip_line]) ++ skip_trace pre).
    unfold link_requests. rewrite Hit, IHt. reflexivity.
  - simpl. rewrite (no_link_status w it Hit), IHs. reflexivity.
Qed.

(** X6.  An item with no link element raises AttributeError inside the try
    as well: it is skipped with the usual line printed and without any
    request, and the first later item with a body supplies the body. *)
Theorem items_without_link_are_skipped_without_request
    (w : World) (fuel : nat) (articles pre post : list Tag) (item first : Tag)
    (t d b : string) :
  feed_items w = Some articles ->
  articles = pre ++ item :: post ->
  Forall (fun it => link_text it = None) pre ->
  page_status_of w item = HasBody b ->
  hd_error articles = Some first ->
  title_of first = Some t ->
  description_of first = Some d ->
  length pre < fuel ->
  get_headlines w fuel BBCNews_init =
  (EvRequest (url BBCNews_init) 10
     :: map (fun _ => EvPrint "Article not found, trying next article.") pre
     ++ link_requests item,
   Return (t, d, b)).
Proof.
  intros Hfeed Hsplit Hpre Hitem Hfirst Ht Hd Hfuel.
  destruct (skip_trace_no_links w pre Hpre) as [Htr Hsk].
  assert (Hns : skipped (page_status_of w item) = false) by (rewrite Hitem; reflexivity).
  rewrite (get_headlines_stops_at w fuel articles pre post item Hfeed Hsplit
             Hsk Hns Hfuel).
  rewrite (hd_error_hd _ _ _ _ _ Hsplit Hfirst), Hitem, Ht, Hd, Htr.
  reflexivity.
Qed.

Lemma items_without_link_are_skipped_without_request_witness :
  link_text Edge.linkless_item = None /\
  get_headlines Edge.first_has_no_link 2 BBCNews_init =
  ([EvRequest Demo.feed_url 10;
    EvPrint "Article not found, trying next article.";
    EvRequest "http://bbc/b" 10],
   Return ("Headline N", "Desc N", "Body text B")).
Proof.
  split; [reflexivity |].
  apply (items_without_link_are_skipped_without_request Edge.first_has_no_link 2
           [Edge.linkless_item; Demo.item_b; Demo.item_c] [Edge.linkless_item]
           [Demo.item_c] Demo.item_b Edge.linkless_item).
  - reflexivity.
  - reflexivity.
  - repeat constructor.
  - reflexivity.
  - reflexivity.
  - reflexivity.
  - reflexivity.
  - simpl. lia.
Defined.

Lemma skipped_prefix_split (w : World) (items : list Tag) :
  exists rest,
    items = skipped_prefix w items ++ rest /\
    forallb (fun it => skipped (page_status_of w it)) (skipped_prefix w items) = true /\
    (rest = [] \/
     exists item post,
       rest = item :: post /\ skipped (page_status_of w item) = false).
Proof.
  induction items as [| it items (rest & Hsplit & Hall & Hrest)].
  - exists []. repeat split. left. reflexivity.
  - simpl. destruct (skipped (page_status_of w it)) eqn:Hit.
    + exists rest. split; [simpl; f_equal; exact Hsplit |].
      split; [simpl; rewrite Hit; exact Hall | exact Hrest].
    + exists (it :: items). split; [reflexivity |]. split; [reflexivity |].
      right. exists it, items. split; [reflexivity | exact Hit].
Qed.

Lemma skipped_prefix_length (w : World) (items : list Tag) :
  length (skipped_prefix w items) <= length items.
Proof.
  induction items as [| it items IH]; simpl; [lia |].
  destruct (skipped (page_status_of w it)); simpl; lia.
Qed.

(** X7.  On every feed that can be fetched, whether the loop stops at a
    reference or runs off the end of the list, get_headlines prints its
    "Article not found" line exactly once for every reference it skips, and
    prints nothing else. *)
Theorem one_line_printed_per_skipped_reference
    (w : World) (fuel : nat) (articles : list Tag) :
  feed_items w = Some articles ->
  length articles < fuel ->
  printed_lines (trace (get_headlines w fuel BBCNews_init)) =
  repeat "Article not found, trying next article."
    (length (skipped_prefix w articles)).
Proof.
  intros Hfeed Hfuel.
  pose proof (skipped_prefix_length w articles) as Hlen.
  destruct (skipped_prefix_split w articles)
    as (rest & Hsplit & Hall & [-> | (item & post & -> & Hitem)]).
  - rewrite app_nil_r in Hsplit.
    rewrite (get_headlines_exhausts w fuel articles Hfeed) by (congruence || lia).
    unfold trace, fst, feed_request.
    change (printed_lines (EvRequest (url BBCNews_init) 10 :: skip_trace articles))
      with (printed_lines (skip_trace articles)).
    rewrite printed_lines_skip_trace, <- Hsplit. reflexivity.
  - rewrite (get_headlines_stops_at w fuel articles (skipped_prefix w articles)
               post item Hfeed Hsplit Hall Hitem) by lia.
    unfold trace, fst, feed_request.
    change (printed_lines (EvRequest (url BBCNews_init) 10
                             :: skip_trace (skipped_prefix w articles)
                                ++ link_requests item))
      with (printed_lines (skip_trace (skipped_prefix w articles)
                             ++ link_requests item)).
    rewrite printed_lines_app, printed_lines_skip_trace, printed_lines_link_requests.
    apply app_nil_r.
Qed.

Lemma one_line_printed_per_skipped_reference_witness :
  printed_lines (trace (get_headlines Demo.no_bodies 3 BBCNews_init)) =
    ["Article not found, trying next article.";
     "Article not found, trying next article."] /\
  printed_lines (trace (get_headlines Demo.second_times_out 4 BBCNews_init)) =
    ["Article not found, trying next article."].
Proof.
  split.
  - apply (one_line_printed_per_skipped_reference Demo.no_bodies 3
             [Demo.item_a; Demo.item_b]).
    + reflexivity.
    + simpl. lia.
  - apply (one_line_printed_per_skipped_reference Demo.second_times_out 4
             [Demo.item_a; Demo.item_b; Demo.item_c]).
    + reflexivity.
    + simpl. lia.
Defined.

(** ** Further properties of main *)

Lemma path_name_joinpath (p : Path) (child : string) :
  path_name (joinpath p child) = child.
Proof. unfold path_name, joinpath. simpl. apply last_last. Qed.

(** X8.  When the completion endpoint raises, main raises that error right
    after the completion request: nothing is printed, no speech is
    requested, nothing is written or played. *)
Theorem main_stops_at_failed_completion
    (w : World) (fuel : nat) (t d b why : string) :
  result (get_headlines w fuel BBCNews_init) = Return (t, d, b) ->
  chat_completions_create w (chat_request t d b) = inl why ->
  main w fuel =
  (trace (get_headlines w fuel BBCNews_init) ++ [EvChatCreate (chat_request t d b)],
   Raise (OpenAIError why)).
Proof.
  intros Hgh Hchat. rewrite (main_with_headlines w fuel t d b Hgh).
  unfold summarise_log. cbv zeta. rewrite Hchat. reflexivity.
Qed.

Lemma main_stops_at_failed_completion_witness :
  main Edge.chat_down 1 =
  ([EvRequest Demo.feed_url 10;
    EvRequest "http://bbc/b" 10;
    EvChatCreate (chat_request "Headline B" "Desc B" "Body text B")],
   Raise (OpenAIError "AuthenticationError")).
Proof.
  apply (main_stops_at_failed_completion Edge.chat_down 1
           "Headline B" "Desc B" "Body text B" "AuthenticationError").
  - reflexivity.
  - reflexivity.
Defined.

(** X9.  When the completion endpoint answers with an empty list of
    choices, the print loop does nothing and response.choices[0] raises
    IndexError: main ends there, with no speech request. *)
Theorem main_raises_IndexError_on_no_choice
    (w : World) (fuel : nat) (t d b : string) :
  result (get_headlines w fuel BBCNews_init) = Return (t, d, b) ->
  chat_completions_create w (chat_request t d b) = inr (mkChatCompletion []) ->
  main w fuel =
  (trace (get_headlines w fuel BBCNews_init) ++ [EvChatCreate (chat_request t d b)],
   Raise IndexError).
Proof.
  intros Hgh Hchat. rewrite (main_with_headlines w fuel t d b Hgh).
  unfold summarise_log. cbv zeta. rewrite Hchat. reflexivity.
Qed.

Lemma main_raises_IndexError_on_no_choice_witness :
  main Edge.no_choices 1 =
  ([EvRequest Demo.feed_url 10;
    EvRequest "http://bbc/b" 10;
    EvChatCreate (chat_request "Headline B" "Desc B" "Body text B")],
   Raise IndexError).
Proof.
  apply (main_raises_IndexError_on_no_choice Edge.no_choices 1
           "Headline B" "Desc B" "Body text B").
  - reflexivity.
  - reflexivity.
Defined.

(** X10.  A run in which every service answers: after the resolver's own
    events main sends the completion request, prints every returned choice
    in order, asks for the speech of the first choice, writes the audio to
    news.mp3 beside the script, sleeps for half a second, hands the bare name
    news.mp3 to playsound, and returns. *)
Theorem main_successful_run
    (w : World) (fuel : nat) (t d b c audio : string) (cs : list string) :
  result (get_headlines w fuel BBCNews_init) = Return (t, d, b) ->
  chat_completions_create w (chat_request t d b) = inr (mkChatCompletion (c :: cs)) ->
  audio_speech_create w (speech_request c) = inr audio ->
  stream_to_file w (joinpath (parent (dunder_file w)) "news.mp3") audio = None ->
  playsound w "news.mp3" = None ->
  main w fuel =
  (trace (get_headlines w fuel BBCNews_init)
     ++ EvChatCreate (chat_request t d b)
     :: map EvPrint (c :: cs)
     ++ [EvSpeechCreate (speech_request c);
         EvStreamToFile (joinpath (parent (dunder_file w)) "news.mp3") audio;
         EvSleep 0.5;
         EvPlaysound "news.mp3"],
   Return tt).
Proof.
  intros Hgh Hchat Hspeech Hwrite Hplay.
  rewrite (main_with_headlines w fuel t d b Hgh).
  unfold summarise_log. cbv zeta. rewrite Hchat.
  cbn [choices]. rewrite bind_return.
  unfold speak_log. cbv zeta. rewrite Hspeech.
  change (path (TTS_init w (mkOpenAI (OPENAI_API_KEY w)) "news"))
    with (joinpath (parent (dunder_file w)) "news.mp3").
  rewrite Hwrite, path_name_joinpath, Hplay.
  reflexivity.
Qed.

Lemma main_successful_run_witness :
  main Edge.two_choices 1 =
  ([EvRequest Demo.feed_url 10;
    EvRequest "http://bbc/b" 10;
    EvChatCreate (chat_request "Headline B" "Desc B" "Body text B");
    EvPrint "First.";
    EvPrint "Second.";
    EvSpeechCreate (speech_request "First.");
    EvStreamToFile (mkPath true ["home"; "user"; "News-Reader"; "news.mp3"]) "mp3-bytes";
    EvSleep 0.5;
    EvPlaysound "news.mp3"],
   Return tt).
Proof.
  apply (main_successful_run Edge.two_choices 1
           "Headline B" "Desc B" "Body text B" "First." "mp3-bytes" ["Second."]).
  - reflexivity.
  - reflexivity.
  - reflexivity.
  - reflexivity.
  - reflexivity.
Defined.

(** X11.  When the audio is synthesised but writing it raises, main raises
    that error with the write as its last event: it neither sleeps nor asks
    for playback. *)
Theorem main_stops_at_failed_write
    (w : World) (fuel : nat) (t d b c audio why : string) (cs : list string) :
  result (get_headlines w fuel BBCNews_init) = Return (t, d, b) ->
  chat_completions_create w (chat_request t d b) = inr (mkChatCompletion (c :: cs)) ->
  audio_speech_create w (speech_request c) = inr audio ->
  stream_to_file w (joinpath (parent (dunder_file w)) "news.mp3") audio = Some why ->
  main w fuel =
  (trace (get_headlines w fuel BBCNews_init)
     ++ EvChatCreate (chat_request t d b)
     :: map EvPrint (c :: cs)
     ++ [EvSpeechCreate (speech_request c);
         EvStreamToFile (joinpath (parent (dunder_file w)) "news.mp3") audio],
   Raise (OSError why)).
Proof.
  intros Hgh Hchat Hspeech Hwrite.
  rewrite (main_with_headlines w fuel t d b Hgh).
  unfold summarise_log. cbv zeta. rewrite Hchat.
  cbn [choices]. rewrite bind_return.
  unfold speak_log. cbv zeta. rewrite Hspeech.
  change (path (TTS_init w (mkOpenAI (OPENAI_API_KEY w)) "news"))
    with (joinpath (parent (dunder_file w)) "news.mp3").
  rewrite Hwrite. reflexivity.
Qed.

Lemma main_stops_at_failed_write_witness :
  main Edge.write_fails 1 =
  ([EvRequest Demo.feed_url 10;
    EvRequest "http://bbc/b" 10;
    EvChatCreate (chat_request "Headline B" "Desc B" "Body text B");
    EvPrint "Summary of the day.";
    EvSpeechCreate (speech_request "Summary of the day.");
    EvStreamToFile (mkPath true ["home"; "user"; "News-Reader"; "news.mp3"]) "mp3-bytes"],
   Raise (OSError "PermissionError")).
Proof.
  apply (main_stops_at_failed_write Edge.write_fails 1
           "Headline B" "Desc B" "Body text B" "Summary of the day." "mp3-bytes"
           "PermissionError" []).
  - reflexivity.
  - reflexivity.
  - reflexivity.
  - reflexivity.
Defined.

(** X12.  In every run, whatever the services answer and whatever the fuel,
    main makes at most one completion request, and each later stage happens
    at most as often as the one before it: playbacks <= file writes <=
    speech requests <= completion requests <= 1. *)
Theorem main_stages_happen_at_most_once_in_order (w : World) (fuel : nat) :
  let tr := trace (main w fuel) in
  length (played_sounds tr) <= length (written_paths tr) /\
  length (written_paths tr) <= length (speech_requests tr) /\
  length (speech_requests tr) <= length (chat_requests tr) /\
  length (chat_requests tr) <= 1.
Proof.
  cbv zeta. rewrite main_chat, main_speech, main_written, main_played.
  destruct (result (get_headlines w fuel BBCNews_init)) as [[[t d] b] | e |];
    simpl; try lia.
  destruct (summary_of w (chat_request t d b)) as [s |]; simpl; try lia.
  rewrite speak_log_played, speak_log_written, create_audio_run.
  destruct (audio_speech_create w (speech_request s)) as [why | audio];
    simpl; try lia.
  destruct (stream_to_file w _ audio); simpl; lia.
Qed.

Lemma main_writes_next_to_script_plays_bare_name_witness :
  played_sounds (trace (main Demo.second_has_body 2)) <> [] /\
  written_paths (trace (main Demo.second_has_body 2)) =
    [mkPath true ["home"; "user"; "News-Reader"; "news.mp3"]] /\
  played_sounds (trace (main Demo.second_has_body 2)) = ["news.mp3"].
Proof.
  split; [vm_compute; discriminate |].
  apply (main_writes_next_to_script_plays_bare_name Demo.second_has_body 2).
  vm_compute. discriminate.
Defined.

(** X14.  When the program is started in the directory of the script, and
    the script's path is absolute, the name main hands to playsound resolves
    to the very file main wrote. *)
Theorem playback_finds_written_file_when_started_in_script_dir
    (w : World) (fuel : nat) :
  cwd w = parent (dunder_file w) ->
  absolute (dunder_file w) = true ->
  played_sounds (trace (main w fuel)) <> [] ->
  map (fun s => resolve w (Path_of_name s)) (played_sounds (trace (main w fuel))) =
  map (resolve w) (written_paths (trace (main w fuel))).
Proof.
  intros Hcwd Habs.
  rewrite main_written, main_played.
  destruct (result (get_headlines w fuel BBCNews_init)) as [[[t d] b] | e |];
    try congruence.
  destruct (summary_of w (chat_request t d b)) as [s |]; [| congruence].
  rewrite speak_log_played, speak_log_written, create_audio_run.
  destruct (audio_speech_create w (speech_request s)) as [why | audio];
    [simpl; congruence |].
  simpl. destruct (stream_to_file w _ audio); [congruence |].
  intros _. cbn [map]. f_equal.
  change (path_name (joinpath (parent (dunder_file w)) ("news" ++ ".mp3")))
    with (path_name (joinpath (parent (dunder_file w)) "news.mp3")).
  rewrite path_name_joinpath.
  apply (bare_name_resolves_to_written_path_in_script_dir w Hcwd Habs).
Qed.

Lemma playback_finds_written_file_when_started_in_script_dir_witness :
  cwd Demo.started_in_script_dir = parent (dunder_file Demo.started_in_script_dir) /\
  map (fun s => resolve Demo.started_in_script_dir (Path_of_name s))
    (played_sounds (trace (main Demo.started_in_script_dir 2))) =
  map (resolve Demo.started_in_script_dir)
    (written_paths (trace (main Demo.started_in_script_dir 2))).
Proof.
  split; [reflexivity |].
  apply (playback_finds_written_file_when_started_in_script_dir
           Demo.started_in_script_dir 2).
  - reflexivity.
  - reflexivity.
  - vm_compute. discriminate.
Defined.

(** ** Further properties of AIChat and News *)

Lemma fold_add_input_settings (ds : list message) :
  forall chat,
    model (fold_left add_input ds chat) = model chat /\
    temperature (fold_left add_input ds chat) = temperature chat /\
    num_of_responses (fold_left add_input ds chat) = num_of_responses chat.
Proof.
  induction ds as [| d ds IH]; intros chat; simpl; [repeat split |].
  destruct (IH (add_input chat d)) as (-> & -> & ->). repeat split.
Qed.

(** X15.  After any sequence of add_input calls on a fresh AIChat, run_ai
    sends one request: model gpt-3.5-turbo, temperature 0.5, n = 1, and as
    messages the system instruction followed by the added messages in the
    order they were added.  It raises when the endpoint does and otherwise
    returns the endpoint's response. *)
Theorem run_ai_sends_every_added_input_in_order
    (w : World) (c : OpenAI) (ds : list message) :
  let chat := fold_left add_input ds (AIChat_init c) in
  let req := {| req_model := "gpt-3.5-turbo";
                req_messages := system_message :: ds;
                req_temperature := 0.5;
                req_n := 1 |} in
  run_ai w chat =
  ([EvChatCreate req],
   match chat_completions_create w req with
   | inl why => Raise (OpenAIError why)
   | inr response => Return (response, chat)
   end).
Proof.
  intros chat req. unfold run_ai, chat_create.
  destruct (fold_add_input_settings ds (AIChat_init c)) as (Hm & Ht & Hn).
  fold chat in Hm, Ht, Hn. rewrite Hm, Ht, Hn.
  assert (Hi : inputs chat = system_message :: ds).
  { subst chat. rewrite inputs_fold_add_input. reflexivity. }
  rewrite Hi. fold req.
  change {| req_model := model (AIChat_init c);
            req_messages := system_message :: ds;
            req_temperature := temperature (AIChat_init c);
            req_n := num_of_responses (AIChat_init c) |} with req.
  destruct (chat_completions_create w req); reflexivity.
Qed.

(** X16.  _get_body makes exactly one request, with the ten second timeout,
    whatever comes of it; it raises AttributeError exactly when the page was
    fetched and the parsed document has no element named [text_class], and
    returns an element's text exactly when the document has such an
    element. *)
Theorem _get_body_raises_AttributeError_iff_element_missing
    (w : World) (self : News) (u features text_class : string) :
  trace (_get_body w self u features text_class) = [EvRequest u 10] /\
  (result (_get_body w self u features text_class) = Raise AttributeError <->
   exists text, requests_get w u 10 = inr text /\
                find text_class (bsoup w text features) = None) /\
  (forall story,
      result (_get_body w self u features text_class) = Return story <->
      exists text el, requests_get w u 10 = inr text /\
                      find text_class (bsoup w text features) = Some el /\
                      get_text el = story).
Proof.
  unfold _get_body, _get_soup, requests_dot_get, dot_text.
  destruct (requests_get w u 10) as [why | text].
  - split; [reflexivity |]. split.
    + split; [discriminate | intros (text & H & _); discriminate H].
    + intros story. split; [discriminate | intros (text & el & H & _); discriminate H].
  - unfold bind; simpl.
    destruct (find text_class (bsoup w text features)) as [el |] eqn:Hfind; simpl.
    + split; [reflexivity |]. split.
      * split; [discriminate |].
        intros (text' & [= <-] & H). congruence.
      * intros story. split.
        -- intros [= <-]. exists text, el. repeat split; assumption.
        -- intros (text' & el' & [= <-] & H & <-). congruence.
    + split; [reflexivity |]. split.
      * split; [| reflexivity]. intros _. exists text. split; [reflexivity | assumption].
      * intros story. split; [discriminate |].
        intros (text' & el & [= <-] & H & _). congruence.
Qed.

(** ** TTSOld *)

(** X17.  Building a TTSOld starts the engine, sets the rate to 125 and the
    volume to 1.0, reads the voices and selects the second one.  With fewer
    than two voices the index 1 is out of range: the constructor raises
    IndexError after the rate and the volume were set and no voice is
    selected.  When pyttsx3.init itself raises, nothing is set. *)
Theorem TTSOld_init_needs_two_voices (p : Old.Pyttsx3) :
  (forall cls, Old.init_raises p = Some cls ->
     Old.TTSOld_init p = ([Old.CallInit], Raise (UserDefined cls))) /\
  (Old.init_raises p = None ->
   length (Old.voice_ids p) < 2 ->
   Old.TTSOld_init p =
   ([Old.CallInit;
     Old.CallSetProperty "rate" (Old.PInt 125);
     Old.CallSetProperty "volume" (Old.PFloat 1.0);
     Old.CallGetProperty "voices"],
    Raise IndexError)) /\
  (forall v0 v1 rest,
     Old.init_raises p = None ->
     Old.voice_ids p = v0 :: v1 :: rest ->
     Old.TTSOld_init p =
     ([Old.CallInit;
       Old.CallSetProperty "rate" (Old.PInt 125);
       Old.CallSetProperty "volume" (Old.PFloat 1.0);
       Old.CallGetProperty "voices";
       Old.CallSetProperty "voice" (Old.PStr v1)],
      Return (Old.mkTTSOld p))).
Proof.
  unfold Old.TTSOld_init, Old.pyttsx3_init, Old.getProperty_voices.
  split; [| split].
  - intros cls ->. reflexivity.
  - intros -> Hlen.
    destruct (Old.voice_ids p) as [| v0 [| v1 rest]] eqn:Hv; simpl in Hlen; try lia;
      unfold Old.bindO; simpl; rewrite Hv; reflexivity.
  - intros v0 v1 rest -> Hv. unfold Old.bindO; simpl. rewrite Hv. reflexivity.
Qed.

Lemma TTSOld_init_needs_two_voices_witness :
  Old.TTSOld_init (Old.mkPyttsx3 None ["default"]) =
  ([Old.CallInit;
    Old.CallSetProperty "rate" (Old.PInt 125);
    Old.CallSetProperty "volume" (Old.PFloat 1.0);
    Old.CallGetProperty "voices"],
   Raise IndexError) /\
  Old.TTSOld_init (Old.mkPyttsx3 None ["david"; "zira"]) =
  ([Old.CallInit;
    Old.CallSetProperty "rate" (Old.PInt 125);
    Old.CallSetProperty "volume" (Old.PFloat 1.0);
    Old.CallGetProperty "voices";
    Old.CallSetProperty "voice" (Old.PStr "zira")],
   Return (Old.mkTTSOld (Old.mkPyttsx3 None ["david"; "zira"]))).
Proof.
  split.
  - apply (proj1 (proj2 (TTSOld_init_needs_two_voices (Old.mkPyttsx3 None ["default"])))).
    + reflexivity.
    + simpl. lia.
  - apply (proj2 (proj2 (TTSOld_init_needs_two_voices
                           (Old.mkPyttsx3 None ["david"; "zira"]))) "david" "zira" []).
    + reflexivity.
    + reflexivity.
Defined.
